(** * CoinGuard presale backend: payment verification and treasury disbursement

    A shallow embedding of the JavaScript services of the repository

    - [server/services/tokenService.js]   (module [TokenService])
    - [server/services/paymentService.js] (module [PaymentServiceV1], the
      variant whose builders validate the amount, and module [SecureApi],
      the express application with the treasury endpoints)
    - the payment service that exports [createPayment] / [verifyPayment]
      (module [PaymentService])

    JavaScript numbers are IEEE-754 binary64 values and are modelled by
    Rocq's primitive floats; millisecond timestamps are integers and are
    modelled by [Z].  Asynchronous functions that talk to the ledger are
    functions in a state-and-exception monad over a [World] that holds the
    clock, the ledger as seen through the RPC endpoints, and the log of
    the transactions this process has broadcast. *)

From Stdlib Require Import ZArith Floats Ascii String List Bool Lia.
From stdpp Require Import base option list gmap strings.
Import ListNotations.

#[local] Set Warnings "-inexact-float".

Local Open Scope string_scope.
Local Open Scope Z_scope.

(** ** JavaScript values *)

Module JS.

(** [isNaN] on a number. *)
Definition isNaN (x : float) : bool := PrimFloat.is_nan x.

(** Truthiness of a number: [0], [-0] and [NaN] are falsy. *)
Definition truthy (x : float) : bool :=
  negb (PrimFloat.eqb x 0 || PrimFloat.is_nan x).

(** [Number(z)] for an integer [z]: the nearest binary64 value, ties to
    even.  Exact below [2^53]. *)
Definition of_Z (z : Z) : float :=
  SF2Prim (binary_normalize prec emax z 0 false).

(** [Math.floor]: the largest integer value not above [x]; zeros,
    infinities and NaN are returned unchanged. *)
Definition Math_floor (x : float) : float :=
  match Prim2SF x with
  | S754_finite s m e =>
      if 0 <=? e then x
      else of_Z ((if s then Z.neg m else Z.pos m) / 2 ^ (- e))
  | _ => x
  end.

(** [Math.pow(b, n)] for a natural exponent [n], as the correctly rounded
    power.  For [b = 10] and [n <= 22] the power is exactly
    representable, which covers token decimals. *)
Definition Math_pow (b : float) (n : nat) : float :=
  match n with
  | O => 1%float
  | _ =>
      match Prim2SF b with
      | S754_finite s m e =>
          let sg := if s then Nat.odd n else false in
          let z := Z.pos m ^ Z.of_nat n in
          SF2Prim (binary_normalize prec emax (if sg then - z else z)
                     (e * Z.of_nat n) false)
      | S754_infinity s =>
          if s && Nat.odd n then PrimFloat.neg_infinity
          else PrimFloat.infinity
      | S754_zero s =>
          if s && Nat.odd n then PrimFloat.neg_zero else PrimFloat.zero
      | S754_nan => PrimFloat.nan
      end
  end.

(** [parseFloat] applied to a number: the number read back from its
    decimal text (so [-0] becomes [0]). *)
Definition parseFloat (x : float) : float :=
  if PrimFloat.eqb x 0 then 0%float else x.

Definition upper_ascii (c : ascii) : ascii :=
  let n := nat_of_ascii c in
  if ((97 <=? n)%nat && (n <=? 122)%nat)%bool
  then ascii_of_nat (n - 32) else c.

(** [String.prototype.toUpperCase] on ASCII text. *)
Fixpoint toUpperCase (s : string) : string :=
  match s with
  | EmptyString => EmptyString
  | String c r => String (upper_ascii c) (toUpperCase r)
  end.

(** [s.startsWith(p)]. *)
Definition startsWith (p s : string) : bool := String.prefix p s.

(** Truthiness of a string: only the empty string is falsy. *)
Definition truthy_str (s : string) : bool :=
  match s with EmptyString => false | _ => true end.

(** Truthiness of a value that may be [undefined]. *)
Definition truthy_opt {A} (t : A -> bool) (o : option A) : bool :=
  match o with Some a => t a | None => false end.

End JS.

(** ** Exceptions and asynchronous state *)

Inductive Result (A : Type) : Type :=
| Ok (a : A)
| Throw (message : string).
Arguments Ok {A} a.
Arguments Throw {A} message.

Definition is_ok {A} (r : Result A) : bool :=
  match r with Ok _ => true | Throw _ => false end.

(** ** Base58 and ledger addresses *)

Module Bs58.

Definition ALPHABET : string :=
  "123456789ABCDEFGHJKLMNPQRSTUVWXYZabcdefghijkmnopqrstuvwxyz".

Fixpoint index_from (i : Z) (c : ascii) (s : string) : option Z :=
  match s with
  | EmptyString => None
  | String d r => if Ascii.eqb c d then Some i else index_from (i + 1) c r
  end.

Definition digit (c : ascii) : option Z := index_from 0 c ALPHABET.

(** The number written by the digits, most significant first; [None] on
    a character outside the alphabet. *)
Fixpoint value (acc : Z) (s : string) : option Z :=
  match s with
  | EmptyString => Some acc
  | String c r =>
      match digit c with
      | Some d => value (acc * 58 + d) r
      | None => None
      end
  end.

(** Leading ['1'] characters, each standing for a zero byte. *)
Fixpoint leader (s : string) : nat * string :=
  match s with
  | String "1" r => let '(n, t) := leader r in (S n, t)
  | _ => (O, s)
  end.

(** Big-endian bytes of [n] without leading zero bytes. *)
Fixpoint be_bytes (fuel : nat) (n : Z) (acc : list Z) : list Z :=
  match fuel with
  | O => acc
  | S k => if n =? 0 then acc else be_bytes k (n / 256) (n mod 256 :: acc)
  end.

(** [bs58.decode]: throws on a character outside the alphabet. *)
Definition decode (s : string) : Result (list Z) :=
  let '(zeros, rest) := leader s in
  match value 0 rest with
  | Some n =>
      Ok (List.app (repeat 0 zeros) (be_bytes (String.length rest) n []))
  | None => Throw "Non-base58 character"
  end.

(** The number held by a big-endian byte string ([new BN(bytes)]). *)
Definition bn (bytes : list Z) : Z :=
  fold_left (fun acc b => acc * 256 + b) bytes 0.

End Bs58.

(** ** The ledger client libraries

    [@solana/web3.js] and [@solana/spl-token] are modelled at their
    interface.  A public key is the number it holds.  What cannot be
    computed here (Ed25519 key derivation, the hash behind associated
    token addresses, the signature of a transaction) is a parameter,
    gathered in [Library]. *)

Definition PublicKey := Z.

Inductive Instruction :=
| SystemTransfer (fromPubkey toPubkey : PublicKey) (lamports : float)
| CreateAssociatedTokenAccount (payer associated owner mint : PublicKey)
| TokenTransfer (source destination owner : PublicKey) (amount : float).

Record Transaction := {
  instructions : list Instruction;
  recentBlockhash : option string;
  lastValidBlockHeight : option Z;
  feePayer : option PublicKey;
  signers : list PublicKey
}.

Definition new_Transaction : Transaction :=
  {| instructions := []; recentBlockhash := None;
     lastValidBlockHeight := None; feePayer := None; signers := [] |}.

(** [transaction.add(i)]. *)
Definition add (i : Instruction) (t : Transaction) : Transaction :=
  {| instructions := List.app (instructions t) [i];
     recentBlockhash := recentBlockhash t;
     lastValidBlockHeight := lastValidBlockHeight t;
     feePayer := feePayer t; signers := signers t |}.

Definition signed_by (ks : list PublicKey) (t : Transaction) : Transaction :=
  {| instructions := instructions t;
     recentBlockhash := recentBlockhash t;
     lastValidBlockHeight := lastValidBlockHeight t;
     feePayer := feePayer t; signers := ks |}.

Record Keypair := { publicKey : PublicKey; secretKey : list Z }.

Record Library := {
  (** Ed25519: the public key bytes of a 32-byte seed. *)
  getPublicKey : list Z -> list Z;
  (** The associated token address of [(mint, owner)]. *)
  associatedAddress : PublicKey -> PublicKey -> PublicKey;
  (** The signature under which a transaction is broadcast. *)
  signatureOf : Transaction -> string
}.

(** A transaction as it landed on the ledger: who paid, in which asset
    ([None] is the native coin, [Some mint] a token), how many base
    units, and the execution error if it failed. *)
Record Landed := {
  landed_payer : PublicKey;
  landed_asset : option PublicKey;
  landed_units : Z;
  landed_err : option string
}.

(** The world outside the process.  The ledger is read through the
    endpoints; what this process sends is kept in [broadcast]; how the
    ledger executes what it receives is not part of the program, so
    [confirmed] is given: it says for every signature, also of the
    transactions still to be sent, what [confirmTransaction] will report. *)
Record World := {
  (** [Date.now()] *)
  now : Z;
  (** the RPC endpoints that answer *)
  live : gset string;
  latestBlockhash : string;
  blockHeight : Z;
  (** token accounts and the units they hold *)
  tokenAccounts : gmap Z Z;
  (** mints and their decimals *)
  mints : gmap Z nat;
  (** every transaction the ledger confirms, by signature *)
  confirmed : gmap string Landed;
  (** transactions broadcast by this process, newest first *)
  broadcast : list Transaction
}.

(** The world after one more broadcast. *)
Definition push (t : Transaction) (w : World) : World :=
  {| now := now w; live := live w;
     latestBlockhash := latestBlockhash w;
     blockHeight := blockHeight w;
     tokenAccounts := tokenAccounts w; mints := mints w;
     confirmed := confirmed w;
     broadcast := t :: broadcast w |}.

Definition M (A : Type) : Type := World -> Result A * World.

Definition ret {A} (a : A) : M A := fun w => (Ok a, w).
Definition throw {A} (message : string) : M A := fun w => (Throw message, w).
Definition lift {A} (r : Result A) : M A := fun w => (r, w).

Definition bind {A B} (m : M A) (k : A -> M B) : M B :=
  fun w =>
    match m w with
    | (Ok a, w') => k a w'
    | (Throw e, w') => (Throw e, w')
    end.

(** [try { body } catch (error) { handler(error.message) }] *)
Definition try_catch {A} (body : M A) (handler : string -> M A) : M A :=
  fun w =>
    match body w with
    | (Ok a, w') => (Ok a, w')
    | (Throw e, w') => handler e w'
    end.

Notation "'let*' x ':=' m 'in' k" := (bind m (fun x => k))
  (at level 10, x name, m at level 100, k at level 200).

Definition rbind {A B} (r : Result A) (k : A -> Result B) : Result B :=
  match r with Ok a => k a | Throw e => Throw e end.

Module Web3.

Definition PUBLIC_KEY_LENGTH : nat := 32.

(** [new PublicKey(value)]: a string is decoded as base58 and must hold
    32 bytes; [undefined] is rejected. *)
Definition PublicKey_new (value : option string) : Result PublicKey :=
  match value with
  | Some s =>
      rbind (Bs58.decode s) (fun decoded =>
        if Nat.eqb (length decoded) PUBLIC_KEY_LENGTH
        then Ok (Bs58.bn decoded)
        else Throw "Invalid public key input")
  | None => Throw "Cannot read properties of undefined (reading '_bn')"
  end.

(** [Keypair.fromSecretKey(bytes)]. *)
Definition Keypair_fromSecretKey (lib : Library) (bytes : list Z)
  : Result Keypair :=
  if negb (Nat.eqb (length bytes) 64) then Throw "bad secret key size"
  else
    let pub := skipn 32 bytes in
    if bool_decide (getPublicKey lib (firstn 32 bytes) = pub)
    then Ok {| publicKey := Bs58.bn pub; secretKey := bytes |}
    else Throw "provided secretKey is invalid".

Definition Connection := string.

(** [new Connection(endpoint, 'confirmed')]. *)
Definition Connection_new (endpoint : option string) : Result Connection :=
  match endpoint with
  | Some url =>
      if JS.startsWith "http:" url || JS.startsWith "https:" url
      then Ok url
      else Throw "Endpoint URL must start with `http:` or `https:`."
  | None => Throw "Endpoint URL must start with `http:` or `https:`."
  end.

(** A request through connection [c]: it fails when the endpoint does
    not answer. *)
Definition rpc {A} (c : Connection) (answer : World -> Result A) : M A :=
  fun w =>
    if bool_decide (c ∈ live w) then (answer w, w)
    else (Throw "fetch failed", w).

Definition getLatestBlockhash (c : Connection) : M (string * Z) :=
  rpc c (fun w => Ok (latestBlockhash w, blockHeight w)).

(** [connection.getAccountInfo(a)]: the account, or [null]. *)
Definition getAccountInfo (c : Connection) (a : PublicKey) : M (option Z) :=
  rpc c (fun w => Ok (tokenAccounts w !! a)).

(** [connection.confirmTransaction(signature, 'confirmed')]: the [err]
    of the confirmed transaction; throws when the signature is never
    confirmed. *)
Definition confirmTransaction (c : Connection) (signature : string)
  : M (option string) :=
  rpc c (fun w =>
    match confirmed w !! signature with
    | Some t => Ok (landed_err t)
    | None => Throw "Transaction was not confirmed"
    end).

(** [connection.sendTransaction(transaction, signers)]: the signed
    transaction goes out through a live endpoint and its signature is
    returned. *)
Definition sendTransaction (lib : Library) (c : Connection)
    (t : Transaction) (ks : list Keypair) : M string :=
  fun w =>
    if bool_decide (c ∈ live w) then
      let t' := signed_by (map publicKey ks) t in
      (Ok (signatureOf lib t'), push t' w)
    else (Throw "fetch failed", w).

(** [sendAndConfirmTransaction]: send, wait, and throw when the
    transaction executed with an error. *)
Definition sendAndConfirmTransaction (lib : Library) (c : Connection)
    (t : Transaction) (ks : list Keypair) : M string :=
  let* signature := sendTransaction lib c t ks in
  let* err := confirmTransaction c signature in
  match err with
  | Some e => throw ("Transaction " +:+ signature +:+ " failed")
  | None => ret signature
  end.

End Web3.

Module SplToken.

Definition getAssociatedTokenAddress (lib : Library)
    (mint owner : PublicKey) : PublicKey :=
  associatedAddress lib mint owner.

(** [getAccount]: the token account's units; throws when there is no
    such account. *)
Definition getAccount (c : Web3.Connection) (a : PublicKey) : M Z :=
  Web3.rpc c (fun w =>
    match tokenAccounts w !! a with
    | Some units => Ok units
    | None => Throw "TokenAccountNotFoundError"
    end).

(** [getMint]: the mint's decimals; throws when there is no such mint. *)
Definition getMint (c : Web3.Connection) (m : PublicKey) : M nat :=
  Web3.rpc c (fun w =>
    match mints w !! m with
    | Some d => Ok d
    | None => Throw "TokenAccountNotFoundError"
    end).

End SplToken.

(** ** The process environment

    The values the modules read from [process.env] when they are loaded,
    the library parameters, and the two names the payment service uses
    that no module shown defines: [tokenService.RPC_ENDPOINTS] and
    [LAMPORTS_PER_SOL]. *)

Record Env := {
  lib : Library;
  CGT_MINT_ADDRESS : option string;
  CGT_TREASURY_PUBLIC_KEY : option string;
  CGT_TREASURY_PRIVATE_KEY : option string;
  PAYMENT_RECEIVER_WALLET : option string;
  SOLANA_RPC_URL : string;
  SOLANA_RPC_PRIMARY : option string;
  (** [parseInt(process.env.CGT_DECIMALS) || 9] *)
  CGT_DECIMALS : Z;
  (** [process.env.ALLOWED_RECIPIENTS?.split(',') || []] *)
  ALLOWED_RECIPIENTS : list string;
  (** [process.env.PRESALE_START || 1750819200000], and the end *)
  PRESALE_START : Z;
  PRESALE_END : Z;
  (** [tokenService.TOKEN_CONFIG.PAYMENT_RECEIVER] *)
  PAYMENT_RECEIVER : option string;
  (** [tokenService.RPC_ENDPOINTS] *)
  tokenService_RPC_ENDPOINTS : list string;
  LAMPORTS_PER_SOL : float
}.

(** [x || fallback] on an environment string. *)
Definition or_default (x : option string) (fallback : string) : string :=
  match x with
  | Some s => if JS.truthy_str s then s else fallback
  | None => fallback
  end.

(** ** server/services/tokenService.js *)

Module TokenService.

(** [TOKEN_CONFIG] *)
Definition CGT_MINT (env : Env) := CGT_MINT_ADDRESS env.
Definition TREASURY_PUBLIC_KEY (env : Env) := CGT_TREASURY_PUBLIC_KEY env.
Definition TREASURY_PRIVATE_KEY (env : Env) := CGT_TREASURY_PRIVATE_KEY env.
Definition DECIMALS : Z := 9.
Definition SOL_TO_CGT_RATE : float := 7500.
Definition USDT_TO_CGT_RATE : float := 50.
Definition USDC_TO_CGT_RATE : float := 50.
Definition USDT_MINT : string :=
  "Es9vMFrzaCERmJfrF4H2FYD4KCoNkY11McCe8BenwNYB".
Definition USDC_MINT : string :=
  "EPjFWdd5AufqSSqeM2qN1xzybapC8G4wEGGkZwyTDt1v".

(** [const connection = new Connection(rpcUrl, 'confirmed')] *)
Definition connection (env : Env) : Web3.Connection := SOLANA_RPC_URL env.

Definition getTreasuryKeypair (env : Env) : Result Keypair :=
  match TREASURY_PRIVATE_KEY env with
  | Some key =>
      match rbind (Bs58.decode key) (Web3.Keypair_fromSecretKey (lib env)) with
      | Ok k => Ok k
      | Throw _ => Throw "Invalid treasury private key"
      end
  | None => Throw "Invalid treasury private key"
  end.

Definition isPresaleActive (env : Env) : M bool :=
  fun w => (Ok ((PRESALE_START env <=? now w) && (now w <=? PRESALE_END env)), w).

Definition calculateCgtAmount (amount : float) (tokenType : string)
  : Result float :=
  let t := JS.toUpperCase tokenType in
  if String.eqb t "SOL" then Ok (amount * SOL_TO_CGT_RATE)%float
  else if String.eqb t "USDT" || String.eqb t "USDC"
  then Ok (amount * USDT_TO_CGT_RATE)%float
  else Throw "Invalid token type".

Record EnsureResult := {
  ensure_account : PublicKey;
  ensure_signature : option string
}.

Definition ensureTokenAccount (env : Env) (userWallet : string)
  : M EnsureResult :=
  try_catch
    (let* userPublicKey := lift (Web3.PublicKey_new (Some userWallet)) in
     let* cgtMint := lift (Web3.PublicKey_new (CGT_MINT env)) in
     let userTokenAccount :=
       SplToken.getAssociatedTokenAddress (lib env) cgtMint userPublicKey in
     try_catch
       (let* _ := SplToken.getAccount (connection env) userTokenAccount in
        ret {| ensure_account := userTokenAccount;
               ensure_signature := None |})
       (fun _ =>
          let* treasuryKeypair := lift (getTreasuryKeypair env) in
          let transaction :=
            add (CreateAssociatedTokenAccount (publicKey treasuryKeypair)
                   userTokenAccount userPublicKey cgtMint)
                new_Transaction in
          let* signature :=
            Web3.sendTransaction (lib env) (connection env) transaction
              [treasuryKeypair] in
          let* _ := Web3.confirmTransaction (connection env) signature in
          ret {| ensure_account := userTokenAccount;
                 ensure_signature := Some signature |}))
    (fun message => throw ("Failed to ensure token account: " +:+ message)).

Record TransferResult := {
  success : bool;
  signature : string;
  amount : float;
  recipient : string
}.

Definition transferCgtTokens (env : Env) (userWallet : string)
    (cgtAmount : float) : M TransferResult :=
  let* active := isPresaleActive env in
  if negb active then throw "Presale is not active"
  else
    try_catch
      (let* treasuryKeypair := lift (getTreasuryKeypair env) in
       let* userPublicKey := lift (Web3.PublicKey_new (Some userWallet)) in
       let* cgtMint := lift (Web3.PublicKey_new (CGT_MINT env)) in
       let* _ := ensureTokenAccount env userWallet in
       let treasuryTokenAccount :=
         SplToken.getAssociatedTokenAddress (lib env) cgtMint
           (publicKey treasuryKeypair) in
       let userTokenAccount :=
         SplToken.getAssociatedTokenAddress (lib env) cgtMint userPublicKey in
       let* decimals := SplToken.getMint (connection env) cgtMint in
       let tokenAmount :=
         JS.Math_floor (cgtAmount * JS.Math_pow 10 decimals)%float in
       let transaction :=
         add (TokenTransfer treasuryTokenAccount userTokenAccount
                (publicKey treasuryKeypair) tokenAmount)
             new_Transaction in
       let* signature :=
         Web3.sendTransaction (lib env) (connection env) transaction
           [treasuryKeypair] in
       let* _ := Web3.confirmTransaction (connection env) signature in
       ret {| success := true; signature := signature;
              amount := cgtAmount; recipient := userWallet |})
      (fun message => throw ("Failed to transfer CGT tokens: " +:+ message)).

Definition getCgtBalance (env : Env) (walletAddress : string) : M float :=
  try_catch
    (let* publicKey := lift (Web3.PublicKey_new (Some walletAddress)) in
     let* cgtMint := lift (Web3.PublicKey_new (CGT_MINT env)) in
     let tokenAccount :=
       SplToken.getAssociatedTokenAddress (lib env) cgtMint publicKey in
     try_catch
       (let* units := SplToken.getAccount (connection env) tokenAccount in
        let* decimals := SplToken.getMint (connection env) cgtMint in
        ret (JS.of_Z units / JS.Math_pow 10 decimals)%float)
       (fun _ => ret 0%float))
    (fun message => throw ("Failed to get CGT balance: " +:+ message)).

End TokenService.

(** ** server/services/paymentService.js: builders that validate *)

Module PaymentServiceV1.

(** [const connection = new Connection(process.env.SOLANA_RPC_URL, ...)] *)
Definition connection (env : Env) : Web3.Connection := SOLANA_RPC_URL env.

(** [PAYMENT_CONFIG] *)
Definition RECEIVER_WALLET (env : Env) := PAYMENT_RECEIVER_WALLET env.
Definition USDT_MINT : string :=
  "Es9vMFrzaCERmJfrF4H2FYD4KCoNkY11McCe8BenwNYB".
Definition USDC_MINT : string :=
  "EPjFWdd5AufqSSqeM2qN1xzybapC8G4wEGGkZwyTDt1v".
Definition MIN_SOL : float := 0.05.
Definition MIN_USDT : float := 1.
Definition MIN_USDC : float := 1.
Definition MAX_SOL : float := 1000.
Definition MAX_USDT : float := 50000.
Definition MAX_USDC : float := 50000.

Definition validatePaymentAmount (amount : float) (tokenType : string)
  : Result bool :=
  let numAmount := JS.parseFloat amount in
  if JS.isNaN numAmount || (numAmount <=? 0)%float
  then Throw "Invalid payment amount"
  else
    let t := JS.toUpperCase tokenType in
    if String.eqb t "SOL" then
      if (numAmount <? MIN_SOL)%float || (MAX_SOL <? numAmount)%float
      then Throw "SOL amount must be between 0.05 and 1000"
      else Ok true
    else if String.eqb t "USDT" then
      if (numAmount <? MIN_USDT)%float || (MAX_USDT <? numAmount)%float
      then Throw "USDT amount must be between 1 and 50000"
      else Ok true
    else if String.eqb t "USDC" then
      if (numAmount <? MIN_USDC)%float || (MAX_USDC <? numAmount)%float
      then Throw "USDC amount must be between 1 and 50000"
      else Ok true
    else Throw "Invalid token type".

Record Payment := {
  (** [transaction.serialize({ requireAllSignatures: false })]: the wire
      bytes stand for the transaction, which is kept as it is *)
  transaction : Transaction;
  expectedCgt : float
}.

Definition createSolPayment (env : Env) (fromWallet : string)
    (solAmount : float) : M Payment :=
  try_catch
    (let* _ := lift (validatePaymentAmount solAmount "SOL") in
     let* fromPublicKey := lift (Web3.PublicKey_new (Some fromWallet)) in
     let* toPublicKey := lift (Web3.PublicKey_new (RECEIVER_WALLET env)) in
     let* latest := Web3.getLatestBlockhash (connection env) in
     let transaction :=
       add (SystemTransfer fromPublicKey toPublicKey
              (JS.Math_floor (solAmount * 1e9)%float))
         {| instructions := [];
            recentBlockhash := Some (fst latest);
            lastValidBlockHeight := Some (snd latest);
            feePayer := Some fromPublicKey; signers := [] |} in
     let* expected := lift (TokenService.calculateCgtAmount solAmount "SOL") in
     ret {| transaction := transaction; expectedCgt := expected |})
    (fun message => throw ("Failed to create SOL payment: " +:+ message)).

Definition createSplTokenPayment (env : Env) (fromWallet : string)
    (amount : float) (tokenType : string) : M Payment :=
  try_catch
    (let* _ := lift (validatePaymentAmount amount tokenType) in
     let* fromPublicKey := lift (Web3.PublicKey_new (Some fromWallet)) in
     let* toPublicKey := lift (Web3.PublicKey_new (RECEIVER_WALLET env)) in
     let mintAddress :=
       if String.eqb tokenType "USDT" then USDT_MINT else USDC_MINT in
     let* mint := lift (Web3.PublicKey_new (Some mintAddress)) in
     let fromTokenAccount :=
       SplToken.getAssociatedTokenAddress (lib env) mint fromPublicKey in
     let toTokenAccount :=
       SplToken.getAssociatedTokenAddress (lib env) mint toPublicKey in
     let* latest := Web3.getLatestBlockhash (connection env) in
     let transaction :=
       add (TokenTransfer fromTokenAccount toTokenAccount fromPublicKey
              (JS.Math_floor (amount * 1e6)%float))
         {| instructions := [];
            recentBlockhash := Some (fst latest);
            lastValidBlockHeight := Some (snd latest);
            feePayer := Some fromPublicKey; signers := [] |} in
     let* expected := lift (TokenService.calculateCgtAmount amount tokenType) in
     ret {| transaction := transaction; expectedCgt := expected |})
    (fun message =>
       throw ("Failed to create " +:+ tokenType +:+ " payment: " +:+ message)).

Definition verifyTransaction (env : Env) (signature : string) : M bool :=
  try_catch
    (let* err := Web3.confirmTransaction (connection env) signature in
     match err with
     | Some _ => throw "Transaction failed"
     | None => ret true
     end)
    (fun message => throw ("Transaction verification failed: " +:+ message)).

End PaymentServiceV1.

(** ** The payment service of the verification path
    ([createPayment], [verifyPayment]) *)

Module PaymentService.

(** The same text as in the other payment service; no function of this
    module calls it. *)
Definition validatePaymentAmount := PaymentServiceV1.validatePaymentAmount.

Definition getTokenMint (tokenType : string) : Result PublicKey :=
  let t := JS.toUpperCase tokenType in
  if String.eqb t "USDT"
  then Web3.PublicKey_new (Some TokenService.USDT_MINT)
  else if String.eqb t "USDC"
  then Web3.PublicKey_new (Some TokenService.USDC_MINT)
  else Throw "Invalid token type".

(** [new Connection(tokenService.RPC_ENDPOINTS[0], 'confirmed')] *)
Definition first_endpoint (env : Env) : Result Web3.Connection :=
  Web3.Connection_new (nth_error (tokenService_RPC_ENDPOINTS env) 0).

Definition createSolPayment (env : Env) (fromPubkey toPubkey : PublicKey)
    (amount : float) : M Transaction :=
  let* connection := lift (first_endpoint env) in
  let transaction :=
    add (SystemTransfer fromPubkey toPubkey
           (amount * LAMPORTS_PER_SOL env)%float)
        new_Transaction in
  let* latest := Web3.getLatestBlockhash connection in
  ret {| instructions := instructions transaction;
         recentBlockhash := Some (fst latest);
         lastValidBlockHeight := lastValidBlockHeight transaction;
         feePayer := Some fromPubkey;
         signers := signers transaction |}.

Definition createSplTokenPayment (env : Env) (fromPubkey toPubkey : PublicKey)
    (amount : float) (tokenType : string) : M Transaction :=
  let* connection := lift (first_endpoint env) in
  let* tokenMint := lift (getTokenMint tokenType) in
  let fromTokenAccount :=
    SplToken.getAssociatedTokenAddress (lib env) tokenMint fromPubkey in
  let toTokenAccount :=
    SplToken.getAssociatedTokenAddress (lib env) tokenMint toPubkey in
  let* transaction :=
    try_catch
      (let* _ := Web3.getAccountInfo connection toTokenAccount in
       ret new_Transaction)
      (fun _ =>
         ret (add (CreateAssociatedTokenAccount fromPubkey toTokenAccount
                     toPubkey tokenMint)
                  new_Transaction)) in
  let decimals :=
    if String.eqb (JS.toUpperCase tokenType) "USDT" then 6%nat else 6%nat in
  let tokenAmount :=
    JS.Math_floor (amount * JS.Math_pow 10 decimals)%float in
  let transaction :=
    add (TokenTransfer fromTokenAccount toTokenAccount fromPubkey tokenAmount)
        transaction in
  let* latest := Web3.getLatestBlockhash connection in
  ret {| instructions := instructions transaction;
         recentBlockhash := Some (fst latest);
         lastValidBlockHeight := lastValidBlockHeight transaction;
         feePayer := Some fromPubkey;
         signers := signers transaction |}.

Record Payment := {
  (** [Buffer.from(transaction.serialize()).toString('base64')] *)
  transaction : Transaction;
  cgtAmount : float;
  paymentAmount : float;
  paymentToken : string
}.

Definition createPayment (env : Env) (wallet : string) (amount : float)
    (tokenType : string) : M Payment :=
  try_catch
    (let* active := TokenService.isPresaleActive env in
     if negb active then throw "Presale is not active"
     else
       let* userPublicKey := lift (Web3.PublicKey_new (Some wallet)) in
       let* receiverPublicKey :=
         lift (Web3.PublicKey_new (PAYMENT_RECEIVER env)) in
       let* cgtAmount :=
         lift (TokenService.calculateCgtAmount amount tokenType) in
       let* transaction :=
         if String.eqb (JS.toUpperCase tokenType) "SOL"
         then createSolPayment env userPublicKey receiverPublicKey amount
         else createSplTokenPayment env userPublicKey receiverPublicKey
                amount tokenType in
       ret {| transaction := transaction; cgtAmount := cgtAmount;
              paymentAmount := amount; paymentToken := tokenType |})
    (fun message => throw ("Failed to create payment: " +:+ message)).

Record Verification := {
  success : bool;
  signature : string;
  verified_cgtAmount : float;
  recipient : string
}.

Definition verifyPayment (env : Env) (signature wallet : string)
    (amount : float) (tokenType : string) : M Verification :=
  try_catch
    (let* connection := lift (first_endpoint env) in
     let* err := Web3.confirmTransaction connection signature in
     match err with
     | None =>
         let* cgtAmount :=
           lift (TokenService.calculateCgtAmount amount tokenType) in
         let* transferResult :=
           TokenService.transferCgtTokens env wallet cgtAmount in
         ret {| success := true;
                signature := TokenService.signature transferResult;
                verified_cgtAmount := cgtAmount;
                recipient := wallet |}
     | Some _ => throw "Transaction verification failed"
     end)
    (fun message => throw ("Payment verification failed: " +:+ message)).

End PaymentService.

(** ** The express application with the treasury endpoints *)

Module SecureApi.

(** [SERVER_CONFIG] *)
Definition CGT_MINT (env : Env) := CGT_MINT_ADDRESS env.
Definition TREASURY_PUBLIC_KEY (env : Env) := CGT_TREASURY_PUBLIC_KEY env.
Definition TREASURY_PRIVATE_KEY (env : Env) := CGT_TREASURY_PRIVATE_KEY env.
Definition PAYMENT_RECEIVER (env : Env) := PAYMENT_RECEIVER_WALLET env.
Definition MAX_TRANSFER_AMOUNT : float := 1000000.
Definition MIN_TRANSFER_AMOUNT : float := 1.

(** [SERVER_CONFIG[key]] for the keys of [required], in order. *)
Definition required (env : Env) : list (string * option string) :=
  [ ("CGT_MINT", CGT_MINT env);
    ("TREASURY_PUBLIC_KEY", TREASURY_PUBLIC_KEY env);
    ("TREASURY_PRIVATE_KEY", TREASURY_PRIVATE_KEY env);
    ("PAYMENT_RECEIVER", PAYMENT_RECEIVER env) ].

Fixpoint check_required (entries : list (string * option string))
  : Result unit :=
  match entries with
  | [] => Ok tt
  | (key, v) :: rest =>
      if negb (JS.truthy_opt JS.truthy_str v)
      then Throw ("Missing required server configuration: " +:+ key)
      else check_required rest
  end.

Definition validateServerConfig (env : Env) : Result unit :=
  rbind (check_required (required env)) (fun _ =>
    match TREASURY_PRIVATE_KEY env with
    | Some key =>
        match Bs58.decode key with
        | Ok _ => Ok tt
        | Throw _ => Throw "Invalid treasury private key format"
        end
    | None => Throw "Invalid treasury private key format"
    end).

Definition RPC_ENDPOINTS (env : Env) : list string :=
  [ or_default (SOLANA_RPC_PRIMARY env) "https://api.mainnet-beta.solana.com";
    "https://rpc.ankr.com/solana" ].

(** The loop of [getSecureConnection] over the endpoints that remain.
    The assignment of the connection found to the module variable
    [connection] is left out: nothing reads that variable. *)
Fixpoint probe (endpoints : list string) : M Web3.Connection :=
  match endpoints with
  | [] => throw "All RPC endpoints failed"
  | endpoint :: rest =>
      try_catch
        (let* testConnection := lift (Web3.Connection_new (Some endpoint)) in
         let* _ := Web3.getLatestBlockhash testConnection in
         ret testConnection)
        (fun _ => probe rest)
  end.

Definition getSecureConnection (env : Env) : M Web3.Connection :=
  probe (RPC_ENDPOINTS env).

Definition getTreasuryKeypair (env : Env) : Result Keypair :=
  match TREASURY_PRIVATE_KEY env with
  | Some key =>
      match rbind (Bs58.decode key) (Web3.Keypair_fromSecretKey (lib env)) with
      | Ok k => Ok k
      | Throw _ => Throw "Invalid treasury private key"
      end
  | None => Throw "Invalid treasury private key"
  end.

Definition isValidSolanaAddress (address : string) : bool :=
  is_ok (Web3.PublicKey_new (Some address)).

Inductive TransferOutcome :=
| TransferOk (signature : string) (amount : float) (recipient : string)
             (timestamp : Z)
| TransferFailed (error : string).

Definition executeSecureCgtTransfer (env : Env) (recipientWallet : string)
    (cgtAmount : float) : M TransferOutcome :=
  try_catch
    (let* secureConnection := getSecureConnection env in
     let* treasuryKeypair := lift (getTreasuryKeypair env) in
     let* recipientPublicKey :=
       lift (Web3.PublicKey_new (Some recipientWallet)) in
     let* cgtMint := lift (Web3.PublicKey_new (CGT_MINT env)) in
     let* actualDecimals := SplToken.getMint secureConnection cgtMint in
     let treasuryTokenAccount :=
       SplToken.getAssociatedTokenAddress (lib env) cgtMint
         (publicKey treasuryKeypair) in
     let recipientTokenAccount :=
       SplToken.getAssociatedTokenAddress (lib env) cgtMint
         recipientPublicKey in
     let* transaction :=
       try_catch
         (let* _ := SplToken.getAccount secureConnection recipientTokenAccount in
          ret new_Transaction)
         (fun _ =>
            ret (add (CreateAssociatedTokenAccount
                        (publicKey treasuryKeypair) recipientTokenAccount
                        recipientPublicKey cgtMint)
                     new_Transaction)) in
     let transferAmount :=
       JS.Math_floor (cgtAmount * JS.Math_pow 10 actualDecimals)%float in
     let transaction :=
       add (TokenTransfer treasuryTokenAccount recipientTokenAccount
              (publicKey treasuryKeypair) transferAmount)
           transaction in
     let* signature :=
       Web3.sendAndConfirmTransaction (lib env) secureConnection
         transaction [treasuryKeypair] in
     fun w => (Ok (TransferOk signature cgtAmount recipientWallet (now w)), w))
    (fun _ => ret (TransferFailed "Transfer execution failed")).

(** What a handler sends: the status and the object given to
    [res.json]. *)
Inductive Body :=
| Failure (error : string)
| Error (error : string)
| Transfer (result : TransferOutcome)
| Balance (balance : float)
| Payment (data : PaymentService.Payment)
| Verification (result : PaymentService.Verification).

Record Response := { status : Z; body : Body }.

Definition Handler : Type := World -> Response * World.

Definition respond (code : Z) (b : Body) : Handler :=
  fun w => ({| status := code; body := b |}, w).

(** A handler body inside [try { ... } catch { res.status(500)... }]. *)
Definition handle (m : M Response) (on_error : Body) : Handler :=
  fun w =>
    match m w with
    | (Ok r, w') => (r, w')
    | (Throw _, w') => ({| status := 500; body := on_error |}, w')
    end.

Record TransferRequest := {
  recipientWallet : option string;
  amount : option float;
  (** an integer count of milliseconds, on which [parseInt] is the
      identity *)
  timestamp : option Z
}.

Definition truthy_time (t : Z) : bool := negb (t =? 0).

(** [app.post('/api/transfer-cgt', ...)] *)
Definition post_transfer_cgt (env : Env) (req : TransferRequest) : Handler :=
  handle
    (match recipientWallet req, amount req, timestamp req with
     | Some wallet, Some amt, Some time =>
         if negb (JS.truthy_str wallet) || negb (JS.truthy amt)
            || negb (truthy_time time)
         then ret {| status := 400;
                     body := Failure "Missing required parameters" |}
         else if negb (isValidSolanaAddress wallet)
         then ret {| status := 400; body := Failure "Invalid wallet address" |}
         else
           let transferAmount := JS.parseFloat amt in
           if JS.isNaN transferAmount
              || (transferAmount <? MIN_TRANSFER_AMOUNT)%float
              || (MAX_TRANSFER_AMOUNT <? transferAmount)%float
           then ret {| status := 400;
                       body := Failure "Invalid transfer amount" |}
           else
             let requestTime := time in
             fun w =>
               let currentTime := now w in
               if 300000 <? Z.abs (currentTime - requestTime)
               then (Ok {| status := 400; body := Failure "Request expired" |}, w)
               else if (0 <? length (ALLOWED_RECIPIENTS env))%nat
                       && negb (bool_decide (wallet ∈ ALLOWED_RECIPIENTS env))
               then (Ok {| status := 403;
                           body := Failure "Recipient not authorized" |}, w)
               else
                 (let* result :=
                    executeSecureCgtTransfer env wallet transferAmount in
                  ret {| status := 200; body := Transfer result |}) w
     | _, _, _ =>
         ret {| status := 400; body := Failure "Missing required parameters" |}
     end)
    (Failure "Internal server error").

(** The start of the process: validate, then listen. *)
Inductive Process :=
| Exited (code : Z)
| Listening (host : string).

Definition startup (env : Env) : Process :=
  match validateServerConfig env with
  | Throw _ => Exited 1
  | Ok _ => Listening "127.0.0.1"
  end.

(** [app.get('/api/balance/:wallet', ...)] *)
Definition get_balance (env : Env) (wallet : string) : Handler :=
  handle
    (if negb (JS.truthy_str wallet)
     then ret {| status := 400; body := Error "Wallet address is required" |}
     else
       let* balance := TokenService.getCgtBalance env wallet in
       ret {| status := 200; body := Balance balance |})
    (Error "Failed to get balance").

Record PaymentRequest := {
  req_signature : option string;
  req_wallet : option string;
  req_amount : option float;
  req_tokenType : option string
}.

(** [app.post('/api/payment/create', ...)] *)
Definition post_payment_create (env : Env) (req : PaymentRequest) : Handler :=
  handle
    (match req_wallet req, req_amount req, req_tokenType req with
     | Some wallet, Some amt, Some tokenType =>
         if negb (JS.truthy_str wallet) || negb (JS.truthy amt)
            || negb (JS.truthy_str tokenType)
         then ret {| status := 400; body := Error "Missing required parameters" |}
         else
           let* paymentData :=
             PaymentService.createPayment env wallet amt tokenType in
           ret {| status := 200; body := Payment paymentData |}
     | _, _, _ =>
         ret {| status := 400; body := Error "Missing required parameters" |}
     end)
    (Error "Failed to create payment").

(** [app.post('/api/payment/verify', ...)] *)
Definition post_payment_verify (env : Env) (req : PaymentRequest) : Handler :=
  handle
    (match req_signature req, req_wallet req, req_amount req,
           req_tokenType req with
     | Some signature, Some wallet, Some amt, Some tokenType =>
         if negb (JS.truthy_str signature) || negb (JS.truthy_str wallet)
            || negb (JS.truthy amt) || negb (JS.truthy_str tokenType)
         then ret {| status := 400; body := Error "Missing required parameters" |}
         else
           let* verificationResult :=
             PaymentService.verifyPayment env signature wallet amt tokenType in
           ret {| status := 200; body := Verification verificationResult |}
     | _, _, _, _ =>
         ret {| status := 400; body := Error "Missing required parameters" |}
     end)
    (Error "Failed to verify payment").

(** [app.get('/api/rates', ...)]: rate, minimum and maximum per asset. *)
Definition rates : list (string * (float * float * float)) :=
  [ ("SOL", (TokenService.SOL_TO_CGT_RATE, 0.1%float, 100%float));
    ("USDT", (TokenService.USDT_TO_CGT_RATE, 10%float, 50000%float));
    ("USDC", (TokenService.USDC_TO_CGT_RATE, 10%float, 50000%float)) ].

End SecureApi.

(** ** Observations on the world *)

Definition is_token_transfer (i : Instruction) : bool :=
  match i with TokenTransfer _ _ _ _ => true | _ => false end.

Definition carries_transfer (t : Transaction) : bool :=
  existsb is_token_transfer (instructions t).

(** The units moved by the token-transfer instructions of a transaction. *)
Definition transfer_units (t : Transaction) : list float :=
  flat_map (fun i => match i with
                     | TokenTransfer _ _ _ units => [units]
                     | _ => []
                     end) (instructions t).

(** The treasury disbursements broadcast so far: the broadcast
    transactions that carry a token transfer. *)
Definition disbursements (w : World) : nat :=
  length (List.filter carries_transfer (broadcast w)).

(** Everything of the world but the broadcast log. *)
Definition ledger (w : World) :=
  (now w, live w, latestBlockhash w, blockHeight w,
   tokenAccounts w, mints w, confirmed w).

(** The rate of an asset in the table served by [/api/rates]. *)
Definition rewardPerUnit (asset : string) : option float :=
  match List.find (fun entry => String.eqb (fst entry) asset) SecureApi.rates with
  | Some (_, (rate, _, _)) => Some rate
  | None => None
  end.

Arguments Web3.PublicKey_new : simpl never.
Arguments Bs58.decode : simpl never.
Arguments Web3.Connection_new : simpl never.
Arguments Web3.Keypair_fromSecretKey : simpl never.
Arguments TokenService.getTreasuryKeypair : simpl never.
Arguments SecureApi.getTreasuryKeypair : simpl never.
Arguments TokenService.calculateCgtAmount : simpl never.
Arguments JS.Math_floor : simpl never.
Arguments JS.Math_pow : simpl never.
Arguments JS.of_Z : simpl never.
Arguments JS.toUpperCase : simpl never.

(** ** The properties under study, as predicates on the embedding *)

(** What a verification call reports to its caller. *)
Definition outcome (r : Result PaymentService.Verification)
  : option (bool * float) :=
  match r with
  | Ok v => Some (PaymentService.success v, PaymentService.verified_cgtAmount v)
  | Throw _ => None
  end.







(** [MIN_TRANSFER_AMOUNT <= amount <= MAX_TRANSFER_AMOUNT]. *)
Definition transfer_in_bounds (amount : float) : bool :=
  (SecureApi.MIN_TRANSFER_AMOUNT <=? amount)%float
  && (amount <=? SecureApi.MAX_TRANSFER_AMOUNT)%float.

Definition transfer_request (wallet : string) (amount : float) (time : Z)
  : SecureApi.TransferRequest :=
  {| SecureApi.recipientWallet := Some wallet;
     SecureApi.amount := Some amount;
     SecureApi.timestamp := Some time |}.


(** Payment amounts outside the bounds of [PAYMENT_CONFIG]. *)
Definition payment_out_of_bounds (amount : float) (tokenType : string) : bool :=
  let t := JS.toUpperCase tokenType in
  if String.eqb t "SOL"
  then negb ((PaymentServiceV1.MIN_SOL <=? amount)%float
             && (amount <=? PaymentServiceV1.MAX_SOL)%float)
  else if String.eqb t "USDT"
  then negb ((PaymentServiceV1.MIN_USDT <=? amount)%float
             && (amount <=? PaymentServiceV1.MAX_USDT)%float)
  else negb ((PaymentServiceV1.MIN_USDC <=? amount)%float
             && (amount <=? PaymentServiceV1.MAX_USDC)%float).





(** The endpoint answers the liveness probe of [getSecureConnection]. *)
Definition answers_probe (endpoint : string) (w : World) : bool :=
  is_ok (Web3.Connection_new (Some endpoint))
  && bool_decide (endpoint ∈ live w).

(** An operation raises an error only when every configured endpoint is
    down. *)
Definition raises_only_when_all_down {A} (endpoints : list string)
    (operation : M A) (w : World) : Prop :=
  is_ok (fst (operation w)) = false ->
  forall endpoint, In endpoint endpoints -> answers_probe endpoint w = false.

(** The world with every confirmed transaction rewritten by [f]. *)
Definition relabel (f : Landed -> Landed) (w : World) : World :=
  {| now := now w; live := live w;
     latestBlockhash := latestBlockhash w;
     blockHeight := blockHeight w;
     tokenAccounts := tokenAccounts w; mints := mints w;
     confirmed := f <$> confirmed w;
     broadcast := broadcast w |}.

(** A computation that cannot tell [g w] from [w]: it returns the same
    result and leaves the image of the same world. *)
Definition commutes {A} (g : World -> World) (m : M A) : Prop :=
  forall w, m (g w) = (fst (m w), g (snd (m w))).

(** [env] with another value for [SERVER_CONFIG.CGT_DECIMALS]. *)
Definition with_decimals (decimals : Z) (env : Env) : Env :=
  {| lib := lib env;
     CGT_MINT_ADDRESS := CGT_MINT_ADDRESS env;
     CGT_TREASURY_PUBLIC_KEY := CGT_TREASURY_PUBLIC_KEY env;
     CGT_TREASURY_PRIVATE_KEY := CGT_TREASURY_PRIVATE_KEY env;
     PAYMENT_RECEIVER_WALLET := PAYMENT_RECEIVER_WALLET env;
     SOLANA_RPC_URL := SOLANA_RPC_URL env;
     SOLANA_RPC_PRIMARY := SOLANA_RPC_PRIMARY env;
     CGT_DECIMALS := decimals;
     ALLOWED_RECIPIENTS := ALLOWED_RECIPIENTS env;
     PRESALE_START := PRESALE_START env;
     PRESALE_END := PRESALE_END env;
     PAYMENT_RECEIVER := PAYMENT_RECEIVER env;
     tokenService_RPC_ENDPOINTS := tokenService_RPC_ENDPOINTS env;
     LAMPORTS_PER_SOL := LAMPORTS_PER_SOL env |}.

(** [env] with another presale window. *)
Definition with_presale (start stop : Z) (env : Env) : Env :=
  {| lib := lib env;
     CGT_MINT_ADDRESS := CGT_MINT_ADDRESS env;
     CGT_TREASURY_PUBLIC_KEY := CGT_TREASURY_PUBLIC_KEY env;
     CGT_TREASURY_PRIVATE_KEY := CGT_TREASURY_PRIVATE_KEY env;
     PAYMENT_RECEIVER_WALLET := PAYMENT_RECEIVER_WALLET env;
     SOLANA_RPC_URL := SOLANA_RPC_URL env;
     SOLANA_RPC_PRIMARY := SOLANA_RPC_PRIMARY env;
     CGT_DECIMALS := CGT_DECIMALS env;
     ALLOWED_RECIPIENTS := ALLOWED_RECIPIENTS env;
     PRESALE_START := start;
     PRESALE_END := stop;
     PAYMENT_RECEIVER := PAYMENT_RECEIVER env;
     tokenService_RPC_ENDPOINTS := tokenService_RPC_ENDPOINTS env;
     LAMPORTS_PER_SOL := LAMPORTS_PER_SOL env |}.

(** ** A concrete deployment and ledger *)

Module Sample.

Definition library : Library :=
  {| getPublicKey := fun seed => seed;
     associatedAddress := fun mint owner => (mint + owner) mod 2 ^ 256;
     signatureOf := fun _ =>
       "5VERv8NMvzbJMEkV8xnrLkEaWRtSz9CosKDYjCJjBRnbTreasury" |}.

Definition payer : string := "So11111111111111111111111111111111111111112".
Definition receiver : string :=
  "4DZPTePbiBvkEWPgbUM53LszBCEobGxEaFga43gQHNdz".
Definition mint : string := "HThCz865FsMBh59ECT2Tyyij2WoRpfEXLJkvxjJSmnsE".
Definition primary : string := "https://api.mainnet-beta.solana.com".
Definition fallback : string := "https://rpc.ankr.com/solana".

(** 64 zero bytes: a key pair under [library]. *)
Definition secret : string :=
  "1111111111111111111111111111111111111111111111111111111111111111".

Definition env : Env :=
  {| lib := library;
     CGT_MINT_ADDRESS := Some mint;
     CGT_TREASURY_PUBLIC_KEY := Some "11111111111111111111111111111111";
     CGT_TREASURY_PRIVATE_KEY := Some secret;
     PAYMENT_RECEIVER_WALLET := Some receiver;
     SOLANA_RPC_URL := primary;
     SOLANA_RPC_PRIMARY := None;
     CGT_DECIMALS := 9;
     ALLOWED_RECIPIENTS := [];
     PRESALE_START := 1750819200000;
     PRESALE_END := 1756166400000;
     PAYMENT_RECEIVER := Some receiver;
     tokenService_RPC_ENDPOINTS := [primary; fallback];
     LAMPORTS_PER_SOL := 1000000000 |}.

(** The same deployment with a private key that is base58 text but
    only three bytes long. *)
Definition env_short_key : Env :=
  {| lib := library;
     CGT_MINT_ADDRESS := Some mint;
     CGT_TREASURY_PUBLIC_KEY := Some "11111111111111111111111111111111";
     CGT_TREASURY_PRIVATE_KEY := Some "2Uw1";
     PAYMENT_RECEIVER_WALLET := Some receiver;
     SOLANA_RPC_URL := primary;
     SOLANA_RPC_PRIMARY := None;
     CGT_DECIMALS := 9;
     ALLOWED_RECIPIENTS := [];
     PRESALE_START := 1750819200000;
     PRESALE_END := 1756166400000;
     PAYMENT_RECEIVER := Some receiver;
     tokenService_RPC_ENDPOINTS := [primary; fallback];
     LAMPORTS_PER_SOL := 1000000000 |}.


Definition mint_key : PublicKey :=
  match Web3.PublicKey_new (Some mint) with Ok k => k | Throw _ => 0 end.

Definition payer_key : PublicKey :=
  match Web3.PublicKey_new (Some payer) with Ok k => k | Throw _ => 0 end.

Definition receiver_key : PublicKey :=
  match Web3.PublicKey_new (Some receiver) with Ok k => k | Throw _ => 0 end.

(** The signature the client submits.  On the ledger it is a payment of
    one base unit of USDC made by somebody else. *)
Definition payment_signature : string :=
  "3AsdoALgZFuq2oUVWrDYhg2pNeaLJKPLf8hU2mQ6U8qJxeJ6hsrPVpMn9ma39DtfYCrDQSvngWRP8NnTpEhezJpE".

Definition foreign_payment : Landed :=
  {| landed_payer := 7; landed_asset := Some 11; landed_units := 1;
     landed_err := None |}.

Definition treasury_landed : Landed :=
  {| landed_payer := 0; landed_asset := Some mint_key; landed_units := 0;
     landed_err := None |}.

(** During the presale; the primary endpoint answers; the mint reports
    6 decimals; nobody holds a token account yet. *)
Definition world : World :=
  {| now := 1751000000000;
     live := {[ primary ]};
     latestBlockhash := "EkSnNWid2cvwEVnVx9aBqawnmiCNiDgp3gUdkDPTKN1N";
     blockHeight := 250000000;
     tokenAccounts := ∅;
     mints := {[ mint_key := 6%nat ]};
     confirmed :=
       {[ payment_signature := foreign_payment;
          signatureOf library new_Transaction := treasury_landed ]};
     broadcast := [] |}.

(** The same ledger after the presale has ended. *)
Definition world_after_presale : World :=
  {| now := 1756166400001;
     live := live world;
     latestBlockhash := latestBlockhash world;
     blockHeight := blockHeight world;
     tokenAccounts := tokenAccounts world;
     mints := mints world;
     confirmed := confirmed world;
     broadcast := [] |}.

(** The same ledger when only the fallback endpoint answers. *)
Definition world_primary_down : World :=
  {| now := now world;
     live := {[ fallback ]};
     latestBlockhash := latestBlockhash world;
     blockHeight := blockHeight world;
     tokenAccounts := tokenAccounts world;
     mints := mints world;
     confirmed := confirmed world;
     broadcast := [] |}.

End Sample.

(** ** The presale routes of the express application *)

Module PresaleRoutes.

Record Status := {
  success : bool;
  status : string;
  message : string;
  timeLeft : Z
}.

(** [app.get('/api/presale/status', ...)]: the object given to
    [res.json].  Both clock reads of the handler see the same instant. *)
Definition get_presale_status (env : Env) (w : World) : Status :=
  let isActive := fst (TokenService.isPresaleActive env w) in
  let current := now w in
  let start := PRESALE_START env in
  let stop := PRESALE_END env in
  if stop <? current
  then {| success := true; status := "ended";
          message := "Presale has ended"; timeLeft := 0 |}
  else
    match isActive with
    | Ok true =>
        {| success := true; status := "active";
           message := "Presale is active"; timeLeft := stop - current |}
    | _ =>
        {| success := true; status := "upcoming";
           message := "Presale has not started yet";
           timeLeft := start - current |}
    end.

Record Countdown := {
  days : Z;
  hours : Z;
  minutes : Z;
  seconds : Z
}.

Record Stats := {
  active : bool;
  raised : Z;
  target : Z;
  price : float;
  participants : Z;
  countdown : Countdown
}.

(** [Math.floor(a / b)] for an integer count of milliseconds [a] and a
    positive integer [b]. *)
Definition floor_div (a b : Z) : Z := a / b.

(** [app.get('/api/presale/stats', ...)]; [%] is the remainder that takes
    the sign of the dividend. *)
Definition get_presale_stats (env : Env) (w : World) : Stats :=
  let isActive :=
    match fst (TokenService.isPresaleActive env w) with
    | Ok b => b
    | Throw _ => false
    end in
  let current := now w in
  let left := PRESALE_END env - current in
  {| active := isActive;
     raised := 1200000;
     target := 4000000;
     price := 0.01;
     participants := 1250;
     countdown :=
       {| days := floor_div left (1000 * 60 * 60 * 24);
          hours := floor_div (Z.rem left (1000 * 60 * 60 * 24)) (1000 * 60 * 60);
          minutes := floor_div (Z.rem left (1000 * 60 * 60)) (1000 * 60);
          seconds := floor_div (Z.rem left (1000 * 60)) 1000 |} |}.

End PresaleRoutes.

(** ** The token scanner application: risk score *)

Module Scanner.

Record Holder := { address : string; amount : float }.

(** [scanData]; a field that is [undefined] in the response reads as NaN
    in the comparisons and quotients below. *)
Record ScanData := {
  totalSupply : float;
  holders : float;
  priceUsd : float;
  liquidityUsd : float;
  volumeUsd24h : float;
  holdersDistribution : list Holder
}.

(** [x || 0] on a number. *)
Definition or_zero (x : float) : float := if JS.truthy x then x else 0%float.

(** [data.holdersDistribution[0]?.amount || 0] *)
Definition top1 (data : ScanData) : float :=
  match holdersDistribution data with
  | h :: _ => or_zero (amount h)
  | [] => 0%float
  end.

(** [data.holdersDistribution.slice(0, 10).reduce((sum, h) => sum + h.amount, 0)] *)
Definition sumTop10 (data : ScanData) : float :=
  fold_left (fun sum h => (sum + amount h)%float)
            (firstn 10 (holdersDistribution data)) 0%float.

Definition calculateRiskScore (data : ScanData) : Z :=
  let score := 0 in
  let score := if (holders data <? 100)%float then score + 30 else score in
  let score := if (liquidityUsd data <? 50000)%float then score + 30 else score in
  let score := if (volumeUsd24h data <? 10000)%float then score + 20 else score in
  let score :=
    if (0.5 <? top1 data / totalSupply data)%float then score + 20 else score in
  let score :=
    if (0.7 <? sumTop10 data / totalSupply data)%float then score + 20
    else score in
  Z.min score 100.

(** The category the scan handler derives from the score. *)
Definition riskCategory (riskScore : Z) : string :=
  if riskScore <? 30 then "Low"
  else if riskScore <? 70 then "Moderate"
  else "High".

End Scanner.

(** ** Further observations *)

(** A computation that only reads the world. *)
Definition reads_only {A} (m : M A) : Prop := forall w, snd (m w) = w.

(** The transfer instruction both disbursement paths build for a
    recipient: from the treasury's associated account to the recipient's
    associated account of the reward mint, by authority of the treasury. *)
Definition reward_transfer (env : Env) (treasury mintKey recipient : PublicKey)
    (units : float) : Instruction :=
  TokenTransfer (associatedAddress (lib env) mintKey treasury)
                (associatedAddress (lib env) mintKey recipient)
                treasury units.

(** The instruction that opens the recipient's associated account, paid
    by the treasury. *)
Definition open_account (env : Env) (treasury mintKey recipient : PublicKey)
  : Instruction :=
  CreateAssociatedTokenAccount treasury
    (associatedAddress (lib env) mintKey recipient) recipient mintKey.

(** A transaction of the treasury alone. *)
Definition treasury_transaction (treasury : PublicKey)
    (body : list Instruction) : Transaction :=
  {| instructions := body; recentBlockhash := None;
     lastValidBlockHeight := None; feePayer := None;
     signers := [treasury] |}.

(** The recipient passes the allow-list check of POST /api/transfer-cgt. *)
Definition recipient_allowed (env : Env) (wallet : string) : bool :=
  negb ((0 <? length (ALLOWED_RECIPIENTS env))%nat
        && negb (bool_decide (wallet ∈ ALLOWED_RECIPIENTS env))).

(** The token types [validatePaymentAmount] knows. *)
Definition known_token (tokenType : string) : bool :=
  let t := JS.toUpperCase tokenType in
  String.eqb t "SOL" || String.eqb t "USDT" || String.eqb t "USDC".

(** The range [/api/rates] advertises for an asset. *)
Definition advertised_range (asset : string) : option (float * float) :=
  match List.find (fun entry => String.eqb (fst entry) asset) SecureApi.rates with
  | Some (_, (_, lo, hi)) => Some (lo, hi)
  | None => None
  end.



(** ** SERVER_CONFIG.ALLOWED_RECIPIENTS *)

Module ServerConfig.

(** [text.split(',')]: the pieces between the commas, one more than
    there are commas. *)
Fixpoint split_commas (text : string) : list string :=
  match text with
  | EmptyString => [EmptyString]
  | String c rest =>
      if Ascii.eqb c ","%char then EmptyString :: split_commas rest
      else match split_commas rest with
           | piece :: pieces => String c piece :: pieces
           | [] => [String c EmptyString]
           end
  end.

(** [process.env.ALLOWED_RECIPIENTS?.split(',') || []]; an array is
    truthy, the empty one too. *)
Definition ALLOWED_RECIPIENTS_of (variable : option string) : list string :=
  match variable with
  | Some text => split_commas text
  | None => []
  end.

End ServerConfig.

(** ** The token service with configurable rates *)

Module TokenServiceRates.

(** The rates of [TOKEN_CONFIG] as read from the environment. *)
Record Rates := {
  SOL_TO_CGT_RATE : float;
  USDT_TO_CGT_RATE : float;
  USDC_TO_CGT_RATE : float
}.

(** [calculateCgtAmount]: the [switch] lets 'USDT' fall through to the
    branch of 'USDC'. *)
Definition calculateCgtAmount (rates : Rates) (amount : float)
    (tokenType : string) : Result float :=
  let t := JS.toUpperCase tokenType in
  if String.eqb t "SOL" then Ok (amount * SOL_TO_CGT_RATE rates)%float
  else if String.eqb t "USDT" || String.eqb t "USDC"
  then Ok (amount * USDT_TO_CGT_RATE rates)%float
  else Throw "Invalid token type".

(** The [rate] fields of [/api/rates] over the same configuration. *)
Definition advertised_rate (rates : Rates) (asset : string) : option float :=
  if String.eqb asset "SOL" then Some (SOL_TO_CGT_RATE rates)
  else if String.eqb asset "USDT" then Some (USDT_TO_CGT_RATE rates)
  else if String.eqb asset "USDC" then Some (USDC_TO_CGT_RATE rates)
  else None.

End TokenServiceRates.

(** ** The application entry points *)

Module AppServer.

(** A port as JavaScript holds it: the number of the default, or the
    text of the environment variable. *)
Inductive Port :=
| PortNumber (n : Z)
| PortText (s : string).

(** [process.env.PORT || 3001] *)
Definition PORT (variable : option string) : Port :=
  match variable with
  | Some text => if JS.truthy_str text then PortText text else PortNumber 3001
  | None => PortNumber 3001
  end.

(** [port + 1]: a sum on a number, a concatenation on text. *)
Definition plus_one (port : Port) : Port :=
  match port with
  | PortNumber n => PortNumber (n + 1)
  | PortText s => PortText (s +:+ "1")
  end.

Inductive ListenError :=
| EADDRINUSE
| OtherError (code : string).

Inductive Started :=
| Resolved (port : Port)
| Rejected (error : ListenError).

(** [startServer(port)].  [listen port] is what [app.listen(port, HOST)]
    ends in: [None] when the listening callback runs, the error
    otherwise.  The chain of calls is followed for [fuel] attempts. *)
Fixpoint startServer (fuel : nat) (listen : Port -> option ListenError)
    (port : Port) : option Started :=
  match fuel with
  | O => None
  | S fuel' =>
      match listen port with
      | None => Some (Resolved port)
      | Some EADDRINUSE => startServer fuel' listen (plus_one port)
      | Some error => Some (Rejected error)
      end
  end.

(** The text of [k] digits 1. *)
Fixpoint ones (k : nat) : string :=
  match k with
  | O => EmptyString
  | S k' => String "1" (ones k')
  end.

(** The port of the attempt after [k] busy ports. *)
Definition attempt (k : nat) (port : Port) : Port := Nat.iter k plus_one port.

(** The entry of rank [i] of the mock leaderboard. *)
Record Entry := { rank : Z; address : string; amount : Z }.

Definition amount_of_rank (i : Z) : Z :=
  if i <=? 10 then 85000 - (i - 1) * 7000 else 19500 - (i - 11) * 350.

(** The loop [for (let i = 1; i <= 50; i++)] of GET /api/leaderboard,
    with [remaining] turns to go.  The addresses are drawn at random:
    [generateSolanaAddress i] is the one drawn for rank [i]. *)
Fixpoint leaderboard_loop (generateSolanaAddress : Z -> string)
    (remaining : nat) (i : Z) (mockLeaderboard : list Entry) : list Entry :=
  match remaining with
  | O => mockLeaderboard
  | S remaining' =>
      leaderboard_loop generateSolanaAddress remaining' (i + 1)
        (mockLeaderboard
         ++ [{| rank := i; address := generateSolanaAddress i;
                amount := amount_of_rank i |}])%list
  end.

Definition get_leaderboard (generateSolanaAddress : Z -> string)
  : list Entry :=
  leaderboard_loop generateSolanaAddress 50 1 [].

End AppServer.

(** ** The entry point that retries on one port *)

Module RetryServer.

(** What the probe socket reports for the port. *)
Inductive Probe :=
| ConnectionRefused
| Connected
| ProbeError (code : string).

(** What one call of [startServer] meets: the probe, and then
    [app.listen]. *)
Record Attempt := {
  probe : Probe;
  listen : option AppServer.ListenError
}.

Inductive Outcome :=
| Serving
| Exit (code : Z).

(** [startServer(retryCount)]; [attempts k] is what the call with
    [retryCount = k] meets. *)
Fixpoint startServer (fuel : nat) (attempts : nat -> Attempt)
    (retryCount : nat) : option Outcome :=
  match fuel with
  | O => None
  | S fuel' =>
      match probe (attempts retryCount) with
      | ConnectionRefused =>
          match listen (attempts retryCount) with
          | None => Some Serving
          | Some AppServer.EADDRINUSE =>
              if (retryCount <? 3)%nat
              then startServer fuel' attempts (S retryCount)
              else Some (Exit 1)
          | Some _ => Some (Exit 1)
          end
      | _ =>
          if (retryCount <? 3)%nat
          then startServer fuel' attempts (S retryCount)
          else Some (Exit 1)
      end
  end.

(** The attempt can be tried again: the port looks taken. *)
Definition retryable (a : Attempt) : bool :=
  match probe a, listen a with
  | ConnectionRefused, None => false
  | ConnectionRefused, Some AppServer.EADDRINUSE => true
  | ConnectionRefused, Some _ => false
  | _, _ => true
  end.

Definition succeeds (a : Attempt) : bool :=
  match probe a, listen a with
  | ConnectionRefused, None => true
  | _, _ => false
  end.

End RetryServer.

(** ** Further ledgers *)

Module Scenario.


(** Every confirmed transaction of [Sample.world] executed with an
    error. *)
Definition failed (t : Landed) : Landed :=
  {| landed_payer := landed_payer t; landed_asset := landed_asset t;
     landed_units := landed_units t;
     landed_err := Some "InstructionError" |}.

(** The deployment of [Sample.env] started with ALLOWED_RECIPIENTS set to
    the empty text. *)
Definition env_blank_allow_list : Env :=
  {| lib := lib Sample.env;
     CGT_MINT_ADDRESS := CGT_MINT_ADDRESS Sample.env;
     CGT_TREASURY_PUBLIC_KEY := CGT_TREASURY_PUBLIC_KEY Sample.env;
     CGT_TREASURY_PRIVATE_KEY := CGT_TREASURY_PRIVATE_KEY Sample.env;
     PAYMENT_RECEIVER_WALLET := PAYMENT_RECEIVER_WALLET Sample.env;
     SOLANA_RPC_URL := SOLANA_RPC_URL Sample.env;
     SOLANA_RPC_PRIMARY := SOLANA_RPC_PRIMARY Sample.env;
     CGT_DECIMALS := CGT_DECIMALS Sample.env;
     ALLOWED_RECIPIENTS := ServerConfig.ALLOWED_RECIPIENTS_of (Some "");
     PRESALE_START := PRESALE_START Sample.env;
     PRESALE_END := PRESALE_END Sample.env;
     PAYMENT_RECEIVER := PAYMENT_RECEIVER Sample.env;
     tokenService_RPC_ENDPOINTS := tokenService_RPC_ENDPOINTS Sample.env;
     LAMPORTS_PER_SOL := LAMPORTS_PER_SOL Sample.env |}.

End Scenario.
(** ** Order facts on binary64 values *)

Section FloatOrder.

Lemma SFcompare_antisym (x y : spec_float) :
  SFcompare y x = option_map CompOpp (SFcompare x y).
Proof.
  destruct x as [sx|sx| |sx mx ex], y as [sy|sy| |sy my ey]; simpl;
    try reflexivity;
    try (destruct sx; reflexivity); try (destruct sy; reflexivity);
    try (destruct sx, sy; reflexivity).
  destruct sx, sy; simpl; try reflexivity;
    rewrite (Z.compare_antisym ex ey);
    destruct (ex ?= ey) eqn:E; simpl; try reflexivity.
  - now rewrite CompOpp_involutive, (Pos.compare_cont_antisym my mx Eq).
  - now rewrite (Pos.compare_cont_antisym mx my Eq).
Qed.

Lemma SFcompare_refl (x : spec_float) :
  x <> S754_nan -> SFcompare x x = Some Eq.
Proof.
  destruct x as [s|s| |s m e]; simpl; intros H; try congruence.
  - now destruct s.
  - destruct s; rewrite Z.compare_refl, Pos.compare_cont_refl; reflexivity.
Qed.

Lemma leb_ltb_false (x y : float) :
  (x <=? y)%float = true -> (y <? x)%float = false.
Proof.
  rewrite FloatAxioms.leb_spec, FloatAxioms.ltb_spec.
  unfold SFleb, SFltb. rewrite (SFcompare_antisym (Prim2SF x) (Prim2SF y)).
  destruct (SFcompare (Prim2SF x) (Prim2SF y)) as [[]|]; simpl; congruence.
Qed.

Lemma leb_not_nan_r (x y : float) :
  (x <=? y)%float = true -> PrimFloat.is_nan y = false.
Proof.
  unfold PrimFloat.is_nan.
  rewrite FloatAxioms.leb_spec, FloatAxioms.eqb_spec. unfold SFleb, SFeqb.
  intros H. rewrite SFcompare_refl; [reflexivity|].
  intros E. rewrite E in H. now destruct (Prim2SF x).
Qed.

Lemma leb_positive_nonzero (lo x : float) m e :
  Prim2SF lo = S754_finite false m e ->
  (lo <=? x)%float = true -> (x =? 0)%float = false.
Proof.
  intros Hlo. rewrite FloatAxioms.leb_spec, FloatAxioms.eqb_spec, Hlo.
  replace (Prim2SF 0) with (S754_zero false) by reflexivity.
  unfold SFleb, SFeqb.
  destruct (Prim2SF x) as [s|s| |s mx ex]; simpl; try congruence.
  - now destruct s.
  - now destruct s.
Qed.

Lemma SFcompare_None x y :
  SFcompare x y = None -> x = S754_nan \/ y = S754_nan.
Proof.
  destruct x as [sx|sx| |sx mx ex], y as [sy|sy| |sy my ey]; simpl;
    auto; try discriminate.
Qed.

Lemma ltb_false_leb (x y : float) :
  PrimFloat.is_nan x = false -> PrimFloat.is_nan y = false ->
  (x <? y)%float = false -> (y <=? x)%float = true.
Proof.
  unfold PrimFloat.is_nan.
  rewrite !FloatAxioms.eqb_spec, FloatAxioms.ltb_spec, FloatAxioms.leb_spec.
  unfold SFeqb, SFltb, SFleb.
  rewrite (SFcompare_antisym (Prim2SF x) (Prim2SF y)).
  destruct (SFcompare (Prim2SF x) (Prim2SF y)) as [[]|] eqn:E; simpl;
    try congruence.
  apply SFcompare_None in E as [E|E]; rewrite E; simpl; discriminate.
Qed.

End FloatOrder.

(** ** The monad and the ledger client *)

Ltac unfold_m :=
  unfold Web3.sendAndConfirmTransaction, Web3.confirmTransaction,
    Web3.getLatestBlockhash, Web3.getAccountInfo, SplToken.getAccount,
    SplToken.getMint, Web3.sendTransaction, Web3.rpc,
    try_catch, bind, lift, ret, throw in *.

Ltac split_m := repeat (simplify_eq/=; try case_match).

Lemma ledger_push t w : ledger (push t w) = ledger w.
Proof. reflexivity. Qed.

Lemma disbursements_push t w :
  disbursements (push t w) =
  (if carries_transfer t then S (disbursements w) else disbursements w).
Proof. unfold disbursements. simpl. now destruct (carries_transfer t). Qed.

(** ** tokenService.js *)

Lemma ensureTokenAccount_frame env wallet w r w' :
  TokenService.ensureTokenAccount env wallet w = (r, w') ->
  ledger w' = ledger w /\
  disbursements w' = disbursements w /\
  exists created, broadcast w' = (created ++ broadcast w)%list.
Proof.
  unfold TokenService.ensureTokenAccount. unfold_m. intros H.
  split_m; repeat split; try (exists []; reflexivity);
    try (eexists [_]; reflexivity).
Qed.

Lemma ledger_mints w w' : ledger w' = ledger w -> mints w' = mints w.
Proof. unfold ledger. congruence. Qed.



Lemma ledger_confirmed w w' :
  ledger w' = ledger w -> confirmed w' = confirmed w.
Proof. unfold ledger. congruence. Qed.

(** A successful [transferCgtTokens] ran inside the presale window and
    broadcast exactly one more disbursement, for the floor of the amount
    scaled by the decimals the mint reports. *)
Lemma transferCgtTokens_ok env wallet amt w r w' :
  TokenService.transferCgtTokens env wallet amt w = (Ok r, w') ->
  PRESALE_START env <= now w <= PRESALE_END env /\
  ledger w' = ledger w /\
  disbursements w' = S (disbursements w) /\
  TokenService.amount r = amt /\
  exists mintKey d t rest,
    Web3.PublicKey_new (TokenService.CGT_MINT env) = Ok mintKey /\
    mints w !! mintKey = Some d /\
    broadcast w' = t :: rest /\
    transfer_units t = [JS.Math_floor (amt * JS.Math_pow 10 d)%float].
Proof.
  unfold TokenService.transferCgtTokens, TokenService.isPresaleActive.
  unfold_m. intros H.
  destruct (PRESALE_START env <=? now w) eqn:Hs; [|discriminate].
  destruct (now w <=? PRESALE_END env) eqn:He; [|discriminate].
  simpl in H.
  destruct (TokenService.getTreasuryKeypair env) as [kp|]; [|discriminate].
  destruct (Web3.PublicKey_new (Some wallet)) as [user|]; [|discriminate].
  destruct (Web3.PublicKey_new (TokenService.CGT_MINT env)) as [mintKey|] eqn:Hm;
    [|discriminate].
  destruct (TokenService.ensureTokenAccount env wallet w) as [[e|] w1] eqn:Hens;
    [|discriminate].
  apply ensureTokenAccount_frame in Hens as (Hl & Hd & created & Hb).
  split; [lia|].
  split_m.
  repeat split; try congruence.
  - unfold ledger. simpl. congruence.
  - rewrite disbursements_push. simpl. congruence.
  - eexists mintKey, _, _, _. repeat split; eauto. congruence.
Qed.



Lemma calculateCgtAmount_rate amount tokenType reward :
  TokenService.calculateCgtAmount amount tokenType = Ok reward ->
  exists rate,
    rewardPerUnit (JS.toUpperCase tokenType) = Some rate /\
    reward = (amount * rate)%float.
Proof.
  unfold TokenService.calculateCgtAmount.
  destruct (String.eqb_spec (JS.toUpperCase tokenType) "SOL") as [->|_].
  { intros [= <-]. eexists. split; reflexivity. }
  destruct (String.eqb_spec (JS.toUpperCase tokenType) "USDT") as [->|_].
  { intros [= <-]. eexists. split; reflexivity. }
  destruct (String.eqb_spec (JS.toUpperCase tokenType) "USDC") as [->|_].
  { intros [= <-]. eexists. split; reflexivity. }
  discriminate.
Qed.

(** ** The payment service *)

(** What a successful [verifyPayment] has done. *)
Lemma verifyPayment_ok env sig wallet amt tokenType w r w' :
  PaymentService.verifyPayment env sig wallet amt tokenType w = (Ok r, w') ->
  (exists t, confirmed w !! sig = Some t /\ landed_err t = None) /\
  PRESALE_START env <= now w <= PRESALE_END env /\
  ledger w' = ledger w /\
  disbursements w' = S (disbursements w) /\
  PaymentService.success r = true /\
  exists reward mintKey d t rest,
    TokenService.calculateCgtAmount amt tokenType = Ok reward /\
    PaymentService.verified_cgtAmount r = reward /\
    Web3.PublicKey_new (TokenService.CGT_MINT env) = Ok mintKey /\
    mints w !! mintKey = Some d /\
    broadcast w' = t :: rest /\
    transfer_units t = [JS.Math_floor (reward * JS.Math_pow 10 d)%float].
Proof.
  unfold PaymentService.verifyPayment. unfold_m. intros H.
  destruct (PaymentService.first_endpoint env) as [c|]; [|discriminate].
  destruct (bool_decide (c ∈ live w)); [|discriminate].
  destruct (confirmed w !! sig) as [t|] eqn:Hc; [|discriminate].
  destruct (landed_err t) eqn:Herr; [discriminate|].
  destruct (TokenService.calculateCgtAmount amt tokenType) as [reward|] eqn:Hr;
    [|discriminate].
  destruct (TokenService.transferCgtTokens env wallet reward w)
    as [[tr|] w1] eqn:Ht; [|discriminate].
  injection H as <- <-.
  apply transferCgtTokens_ok in Ht
    as (Hw & Hl & Hd & _ & mintKey & d & tx & rest & Hm & Hd' & Hb & Hu).
  repeat split; try assumption; try lia.
  - eauto.
  - exists reward, mintKey, d, tx, rest. repeat split; assumption.
Qed.





(** ** The treasury endpoints *)

(** One turn of the loop of [getSecureConnection]. *)
Lemma probe_cons endpoint rest w :
  SecureApi.probe (endpoint :: rest) w =
  if answers_probe endpoint w then (Ok endpoint, w)
  else SecureApi.probe rest w.
Proof.
  unfold answers_probe. simpl. unfold_m. unfold Web3.Connection_new.
  destruct (JS.startsWith "http:" endpoint || JS.startsWith "https:" endpoint);
    simpl; [|reflexivity].
  repeat case_bool_decide; simpl; try reflexivity; contradiction.
Qed.

Lemma probe_frame endpoints w r w' :
  SecureApi.probe endpoints w = (r, w') -> w' = w.
Proof.
  revert r w'. induction endpoints as [|e rest IH]; intros r w'.
  - simpl. unfold throw. congruence.
  - rewrite probe_cons. destruct (answers_probe e w); [congruence|apply IH].
Qed.

(** What a successful [executeSecureCgtTransfer] has broadcast. *)
Lemma executeSecureCgtTransfer_ok env recipient R w sig amt rcp ts w' :
  SecureApi.executeSecureCgtTransfer env recipient R w
  = (Ok (SecureApi.TransferOk sig amt rcp ts), w') ->
  amt = R /\ rcp = recipient /\
  exists mintKey d t,
    Web3.PublicKey_new (SecureApi.CGT_MINT env) = Ok mintKey /\
    mints w !! mintKey = Some d /\
    broadcast w' = t :: broadcast w /\
    transfer_units t = [JS.Math_floor (R * JS.Math_pow 10 d)%float].
Proof.
  unfold SecureApi.executeSecureCgtTransfer, SecureApi.getSecureConnection.
  unfold try_catch at 1. unfold bind at 1. intros H.
  destruct (SecureApi.probe (SecureApi.RPC_ENDPOINTS env) w) as [[c|] w1] eqn:Hp;
    [|discriminate].
  apply probe_frame in Hp as ->.
  unfold_m.
  destruct (SecureApi.getTreasuryKeypair env) as [kp|]; [|discriminate].
  destruct (Web3.PublicKey_new (Some recipient)) as [user|]; [|discriminate].
  destruct (Web3.PublicKey_new (SecureApi.CGT_MINT env)) as [mintKey|] eqn:Hm;
    [|discriminate].
  destruct (bool_decide (c ∈ live w)); [|discriminate].
  destruct (mints w !! mintKey) as [d|] eqn:Hd; [|discriminate].
  split_m; repeat split; exists mintKey, d; eexists; repeat split; eauto.
Qed.

(** C4. Every disbursement moves [Math.floor(R * Math.pow(10, d))] base
    units, where [d] is the decimals value that [getMint] returns for the
    reward mint in the same call; neither [SERVER_CONFIG.CGT_DECIMALS] nor
    [TOKEN_CONFIG.DECIMALS] enters the amount, and changing the configured
    value changes nothing.  This holds for the direct
    path ([executeSecureCgtTransfer]) and for the verification path
    ([transferCgtTokens]); floor, product and power are those of
    JavaScript numbers. *)
Theorem disbursed_units_use_mint_decimals env recipient R w :
  (forall sig amt rcp ts w',
      SecureApi.executeSecureCgtTransfer env recipient R w
      = (Ok (SecureApi.TransferOk sig amt rcp ts), w') ->
      exists mintKey d t rest,
        Web3.PublicKey_new (CGT_MINT_ADDRESS env) = Ok mintKey /\
        mints w !! mintKey = Some d /\
        broadcast w' = t :: rest /\
        transfer_units t = [JS.Math_floor (R * JS.Math_pow 10 d)%float]) /\
  (forall r w',
      TokenService.transferCgtTokens env recipient R w = (Ok r, w') ->
      exists mintKey d t rest,
        Web3.PublicKey_new (CGT_MINT_ADDRESS env) = Ok mintKey /\
        mints w !! mintKey = Some d /\
        broadcast w' = t :: rest /\
        transfer_units t = [JS.Math_floor (R * JS.Math_pow 10 d)%float]) /\
  (forall configured,
      SecureApi.executeSecureCgtTransfer (with_decimals configured env)
        recipient R w
      = SecureApi.executeSecureCgtTransfer env recipient R w /\
      TokenService.transferCgtTokens (with_decimals configured env)
        recipient R w
      = TokenService.transferCgtTokens env recipient R w).
Proof.
  split; [|split]; [| |split; reflexivity].
  - intros sig amt rcp ts w' H.
    apply executeSecureCgtTransfer_ok in H
      as (_ & _ & mintKey & d & t & Hm & Hd & Hb & Hu).
    exists mintKey, d, t, (broadcast w). repeat split; assumption.
  - intros r w' H.
    apply transferCgtTokens_ok in H
      as (_ & _ & _ & _ & mintKey & d & t & rest & Hm & Hd & Hb & Hu).
    exists mintKey, d, t, rest. repeat split; assumption.
Qed.

(** With [CGT_DECIMALS] configured as 9 and a mint that reports 6
    decimals, disbursing 1.5 moves 1500000 base units. *)
Lemma disbursed_units_use_mint_decimals_witness :
  CGT_DECIMALS Sample.env = 9 /\
  exists sig amt rcp ts w' t rest,
    SecureApi.executeSecureCgtTransfer Sample.env Sample.payer 1.5 Sample.world
    = (Ok (SecureApi.TransferOk sig amt rcp ts), w') /\
    broadcast w' = t :: rest /\
    transfer_units t = [1500000%float].
Proof.
  split; [reflexivity|].
  destruct (SecureApi.executeSecureCgtTransfer Sample.env Sample.payer 1.5
              Sample.world) as [[[sig amt rcp ts|m]|m] w'] eqn:E.
  2,3: exfalso;
    assert (H : match fst (SecureApi.executeSecureCgtTransfer Sample.env
                             Sample.payer 1.5 Sample.world) with
                | Ok (SecureApi.TransferOk _ _ _ _) => true
                | _ => false
                end = true) by (vm_compute; reflexivity);
    rewrite E in H; discriminate.
  destruct (proj1 (disbursed_units_use_mint_decimals Sample.env Sample.payer
                     1.5%float Sample.world) _ _ _ _ _ E)
    as (mintKey & d & t & rest & Hm & Hd & Hb & Hu).
  exists sig, amt, rcp, ts, w', t, rest. repeat split; try assumption.
  rewrite Hu.
  assert (Hk : mintKey = Sample.mint_key)
    by (unfold Sample.mint_key; simpl in Hm; rewrite Hm; reflexivity).
  subst mintKey.
  assert (H6 : mints Sample.world !! Sample.mint_key = Some 6%nat)
    by (vm_compute; reflexivity).
  rewrite H6 in Hd. injection Hd as <-. vm_compute. reflexivity.
Defined.

(** C9. [tokenService.transferCgtTokens], the disbursement function of
    the verification path, fails with "Presale is not active" and
    broadcasts nothing whenever the clock is outside the presale window.
    The handler of POST /api/transfer-cgt never consults the window: its
    response and its effect on the world are the same under any window. *)
Theorem presale_gate_on_verification_path_only env wallet amount w :
  now w < PRESALE_START env \/ PRESALE_END env < now w ->
  TokenService.transferCgtTokens env wallet amount w
  = (Throw "Presale is not active", w) /\
  forall start stop request,
    SecureApi.post_transfer_cgt (with_presale start stop env) request w
    = SecureApi.post_transfer_cgt env request w.
Proof.
  intros Hout. split.
  - unfold TokenService.transferCgtTokens, TokenService.isPresaleActive.
    unfold_m.
    replace ((PRESALE_START env <=? now w) && (now w <=? PRESALE_END env))
      with false; [reflexivity|].
    symmetry. apply andb_false_iff. rewrite !Z.leb_gt. lia.
  - intros start stop request. reflexivity.
Qed.

Lemma presale_gate_on_verification_path_only_witness :
  TokenService.transferCgtTokens Sample.env Sample.payer 750
    Sample.world_after_presale
  = (Throw "Presale is not active", Sample.world_after_presale).
Proof.
  apply (presale_gate_on_verification_path_only Sample.env Sample.payer
           750%float Sample.world_after_presale).
  right. reflexivity.
Defined.

(** After the presale the direct path still pays out. *)
Example direct_transfer_after_presale :
  let (response, w') :=
    SecureApi.post_transfer_cgt Sample.env
      (transfer_request Sample.payer 750 1756166400000)
      Sample.world_after_presale in
  SecureApi.status response = 200 /\
  match SecureApi.body response with
  | SecureApi.Transfer (SecureApi.TransferOk _ paid _ _) => paid = 750%float
  | _ => False
  end /\
  disbursements w' = 1%nat.
Proof. vm_compute. repeat split; reflexivity. Qed.



Lemma in_bounds_amount_passes amount :
  transfer_in_bounds amount = true ->
  JS.truthy amount = true /\
  JS.parseFloat amount = amount /\
  JS.isNaN amount = false /\
  (amount <? SecureApi.MIN_TRANSFER_AMOUNT)%float = false /\
  (SecureApi.MAX_TRANSFER_AMOUNT <? amount)%float = false.
Proof.
  unfold transfer_in_bounds. intros [Hlo Hhi]%andb_true_iff.
  assert (Hz : (amount =? 0)%float = false).
  { eapply leb_positive_nonzero; [|exact Hlo]. reflexivity. }
  assert (Hn : PrimFloat.is_nan amount = false)
    by (eapply leb_not_nan_r; exact Hlo).
  unfold JS.truthy, JS.parseFloat, JS.isNaN. rewrite Hz, Hn.
  repeat split; auto using leb_ltb_false.
Qed.

Lemma valid_address_nonempty wallet :
  SecureApi.isValidSolanaAddress wallet = true -> JS.truthy_str wallet = true.
Proof. destruct wallet; [vm_compute; discriminate|reflexivity]. Qed.








Lemma probe_all_down endpoints w :
  (forall e, In e endpoints -> answers_probe e w = false) <->
  SecureApi.probe endpoints w = (Throw "All RPC endpoints failed", w).
Proof.
  induction endpoints as [|e rest IH].
  - simpl. unfold throw. split; [reflexivity|]. intros _ e [].
  - rewrite probe_cons. split.
    + intros Hall. rewrite (Hall e) by (left; reflexivity).
      apply IH. intros x Hx. apply Hall. right. exact Hx.
    + destruct (answers_probe e w) eqn:He; [discriminate|].
      intros Hrest x [<-|Hx]; [exact He|]. revert x Hx. apply IH, Hrest.
Qed.

Lemma probe_returns endpoints w c w' :
  SecureApi.probe endpoints w = (Ok c, w') ->
  In c endpoints /\ answers_probe c w = true /\ w' = w.
Proof.
  induction endpoints as [|e rest IH].
  - simpl. unfold throw. discriminate.
  - rewrite probe_cons. destruct (answers_probe e w) eqn:He.
    + intros [= <- <-]. repeat split; [left; reflexivity|exact He].
    + intros H. destruct (IH H) as (Hin & Hc & Hw).
      repeat split; [right; exact Hin|exact Hc|exact Hw].
Qed.

(** C8 (as amended). [getSecureConnection] tries the configured endpoints
    in order and returns the first one that answers the liveness probe:
    when the first endpoint is unreachable and the next one answers, the
    next one is returned.  It raises "All RPC endpoints failed" exactly
    when every configured endpoint fails the probe.  This is the
    connection of the disbursement path ([executeSecureCgtTransfer]). *)
Theorem secure_connection_failover endpoints w :
  (forall first next rest,
      endpoints = first :: next :: rest ->
      answers_probe first w = false ->
      answers_probe next w = true ->
      SecureApi.probe endpoints w = (Ok next, w)) /\
  ((forall e, In e endpoints -> answers_probe e w = false) <->
   SecureApi.probe endpoints w = (Throw "All RPC endpoints failed", w)) /\
  (forall c w',
      SecureApi.probe endpoints w = (Ok c, w') ->
      In c endpoints /\ answers_probe c w = true /\ w' = w) /\
  (forall env,
      endpoints = SecureApi.RPC_ENDPOINTS env ->
      SecureApi.getSecureConnection env w = SecureApi.probe endpoints w).
Proof.
  repeat split.
  - intros first next rest -> Hf Hn. rewrite !probe_cons, Hf, Hn. reflexivity.
  - apply probe_all_down.
  - apply probe_all_down.
  - eapply probe_returns; eassumption.
  - eapply probe_returns; eassumption.
  - eapply probe_returns; eassumption.
  - intros env ->. reflexivity.
Qed.

Lemma secure_connection_failover_witness :
  SecureApi.getSecureConnection Sample.env Sample.world_primary_down
  = (Ok Sample.fallback, Sample.world_primary_down).
Proof.
  destruct (secure_connection_failover (SecureApi.RPC_ENDPOINTS Sample.env)
              Sample.world_primary_down) as (Hnext & _ & _ & Hget).
  rewrite (Hget Sample.env eq_refl).
  apply (Hnext Sample.primary Sample.fallback []).
  - reflexivity.
  - vm_compute. reflexivity.
  - vm_compute. reflexivity.
Defined.

(** C8 as stated fails for [createSolPayment] of the payment service: it
    connects to the first endpoint only, so it raises an error while the
    second configured endpoint answers. *)
Lemma payment_builder_has_no_failover :
  ~ raises_only_when_all_down (tokenService_RPC_ENDPOINTS Sample.env)
      (PaymentService.createSolPayment Sample.env Sample.payer_key
         Sample.receiver_key 0.1)
      Sample.world_primary_down.
Proof.
  intros H.
  assert (E : answers_probe Sample.fallback Sample.world_primary_down = true)
    by (vm_compute; reflexivity).
  rewrite (H ltac:(vm_compute; reflexivity) Sample.fallback) in E.
  - discriminate.
  - right. left. reflexivity.
Qed.

(** ** Computations that do not read the details of confirmed transactions *)

Section Relabel.

Variable f : Landed -> Landed.
Hypothesis f_err : forall t, landed_err (f t) = landed_err t.

Lemma commutes_ret {A} (a : A) : commutes (relabel f) (ret a).
Proof. intros w. reflexivity. Qed.

Lemma commutes_throw {A} e : commutes (relabel f) (@throw A e).
Proof. intros w. reflexivity. Qed.

Lemma commutes_lift {A} (r : Result A) : commutes (relabel f) (lift r).
Proof. intros w. reflexivity. Qed.

Lemma commutes_bind {A B} (m : M A) (k : A -> M B) :
  commutes (relabel f) m -> (forall a, commutes (relabel f) (k a)) ->
  commutes (relabel f) (bind m k).
Proof.
  intros Hm Hk w. unfold bind. rewrite Hm.
  destruct (m w) as [[a|e] w1]; simpl; [apply Hk|reflexivity].
Qed.

Lemma commutes_try_catch {A} (m : M A) (h : string -> M A) :
  commutes (relabel f) m -> (forall e, commutes (relabel f) (h e)) ->
  commutes (relabel f) (try_catch m h).
Proof.
  intros Hm Hh w. unfold try_catch. rewrite Hm.
  destruct (m w) as [[a|e] w1]; simpl; [reflexivity|apply Hh].
Qed.

Lemma commutes_rpc {A} c (answer : World -> Result A) :
  (forall w, answer (relabel f w) = answer w) ->
  commutes (relabel f) (Web3.rpc c answer).
Proof.
  intros Ha w. unfold Web3.rpc. simpl. rewrite Ha.
  destruct (bool_decide _); reflexivity.
Qed.

Lemma commutes_confirmTransaction c s :
  commutes (relabel f) (Web3.confirmTransaction c s).
Proof.
  apply commutes_rpc. intros w. simpl. rewrite lookup_fmap.
  destruct (confirmed w !! s); simpl; [rewrite f_err|]; reflexivity.
Qed.

Lemma commutes_sendTransaction l c t ks :
  commutes (relabel f) (Web3.sendTransaction l c t ks).
Proof.
  intros w. unfold Web3.sendTransaction. simpl.
  destruct (bool_decide _); reflexivity.
Qed.

Lemma commutes_getAccount c a : commutes (relabel f) (SplToken.getAccount c a).
Proof. apply commutes_rpc. reflexivity. Qed.

Lemma commutes_getMint c a : commutes (relabel f) (SplToken.getMint c a).
Proof. apply commutes_rpc. reflexivity. Qed.

Lemma commutes_isPresaleActive env :
  commutes (relabel f) (TokenService.isPresaleActive env).
Proof. intros w. reflexivity. Qed.

Ltac commute :=
  repeat first
    [ apply commutes_ret | apply commutes_throw | apply commutes_lift
    | apply commutes_confirmTransaction | apply commutes_sendTransaction
    | apply commutes_getAccount | apply commutes_getMint
    | apply commutes_isPresaleActive
    | apply commutes_bind | apply commutes_try_catch
    | progress intros
    | match goal with |- commutes _ (match ?x with _ => _ end) => destruct x end ].

Lemma commutes_ensureTokenAccount env wallet :
  commutes (relabel f) (TokenService.ensureTokenAccount env wallet).
Proof. unfold TokenService.ensureTokenAccount. commute. Qed.

Lemma commutes_transferCgtTokens env wallet amt :
  commutes (relabel f) (TokenService.transferCgtTokens env wallet amt).
Proof.
  unfold TokenService.transferCgtTokens. commute.
Qed.


End Relabel.

(** ** Verification of payments *)




(** The same through POST /api/payment/verify: two requests for one
    signature are both answered 200 with reward 750, and two
    disbursements are broadcast. *)
Example verify_endpoint_twice :
  let request :=
    {| SecureApi.req_signature := Some Sample.payment_signature;
       SecureApi.req_wallet := Some Sample.payer;
       SecureApi.req_amount := Some 0.1%float;
       SecureApi.req_tokenType := Some "SOL" |} in
  let (first, w1) := SecureApi.post_payment_verify Sample.env request Sample.world in
  let (second, w2) := SecureApi.post_payment_verify Sample.env request w1 in
  SecureApi.status first = 200 /\ SecureApi.status second = 200 /\
  match SecureApi.body first, SecureApi.body second with
  | SecureApi.Verification a, SecureApi.Verification b =>
      PaymentService.verified_cgtAmount a = 750%float /\
      PaymentService.verified_cgtAmount b = 750%float
  | _, _ => False
  end /\
  disbursements w1 = 1%nat /\ disbursements w2 = 2%nat.
Proof. vm_compute. repeat split; reflexivity. Qed.



(** [verifyTransaction] of [paymentService.js] accepts a signature only
    when it is confirmed with no execution error. *)
Lemma verifyTransaction_only_confirmed env signature w b w' :
  PaymentServiceV1.verifyTransaction env signature w = (Ok b, w') ->
  exists t, confirmed w !! signature = Some t /\ landed_err t = None.
Proof.
  unfold PaymentServiceV1.verifyTransaction. unfold_m. intros H.
  destruct (bool_decide _); [|discriminate].
  destruct (confirmed w !! signature) as [t|]; [|discriminate].
  destruct (landed_err t) eqn:Herr; [discriminate|]. eauto.
Qed.


Example altered_payment_reward :
  match fst (PaymentService.verifyPayment Sample.env Sample.payment_signature
               Sample.payer 1000 "SOL" Sample.world) with
  | Ok r => PaymentService.verified_cgtAmount r = 7500000%float
  | Throw _ => False
  end.
Proof. vm_compute. reflexivity. Qed.

(** ** Bounds on payment amounts *)

(** [validatePaymentAmount] rejects every amount outside the bounds of
    [PAYMENT_CONFIG]. *)
Lemma validatePaymentAmount_rejects amount tokenType :
  payment_out_of_bounds amount tokenType = true ->
  is_ok (PaymentServiceV1.validatePaymentAmount amount tokenType) = false.
Proof.
  unfold payment_out_of_bounds, PaymentServiceV1.validatePaymentAmount,
    JS.parseFloat, JS.isNaN.
  destruct (amount =? 0)%float eqn:Hz; [reflexivity|].
  destruct (PrimFloat.is_nan amount) eqn:Hn; [reflexivity|].
  destruct (amount <=? 0)%float; [reflexivity|]. cbn [orb].
  assert (Hb : forall lo hi,
             PrimFloat.is_nan lo = false -> PrimFloat.is_nan hi = false ->
             negb ((lo <=? amount)%float && (amount <=? hi)%float) = true ->
             ((amount <? lo)%float || (hi <? amount)%float) = true).
  { intros lo hi Hlo Hhi H. apply negb_true_iff, andb_false_iff in H.
    apply orb_true_iff.
    destruct (amount <? lo)%float eqn:E1; [now left|].
    destruct (hi <? amount)%float eqn:E2; [now right|].
    apply ltb_false_leb in E1; auto. apply ltb_false_leb in E2; auto.
    destruct H; congruence. }
  destruct (String.eqb _ "SOL").
  { intros H.
    rewrite (Hb PaymentServiceV1.MIN_SOL PaymentServiceV1.MAX_SOL
               eq_refl eq_refl H). reflexivity. }
  destruct (String.eqb _ "USDT").
  { intros H.
    rewrite (Hb PaymentServiceV1.MIN_USDT PaymentServiceV1.MAX_USDT
               eq_refl eq_refl H). reflexivity. }
  destruct (String.eqb _ "USDC"); [|reflexivity].
  intros H.
  rewrite (Hb PaymentServiceV1.MIN_USDC PaymentServiceV1.MAX_USDC
             eq_refl eq_refl H). reflexivity.
Qed.

(** The builders of [paymentService.js] validate first: outside the
    bounds they throw and leave the world as it was. *)
Lemma validating_builders_reject env wallet amount tokenType w :
  payment_out_of_bounds amount tokenType = true ->
  (JS.toUpperCase tokenType = "SOL" ->
   is_ok (fst (PaymentServiceV1.createSolPayment env wallet amount w)) = false /\
   snd (PaymentServiceV1.createSolPayment env wallet amount w) = w) /\
  is_ok (fst (PaymentServiceV1.createSplTokenPayment env wallet amount
                tokenType w)) = false /\
  snd (PaymentServiceV1.createSplTokenPayment env wallet amount tokenType w) = w.
Proof.
  intros H. split.
  - intros Hsol.
    assert (H' : payment_out_of_bounds amount "SOL" = true).
    { revert H. unfold payment_out_of_bounds. rewrite Hsol. auto. }
    apply validatePaymentAmount_rejects in H'.
    unfold PaymentServiceV1.createSolPayment. unfold_m.
    destruct (PaymentServiceV1.validatePaymentAmount amount "SOL");
      [discriminate|split; reflexivity].
  - apply validatePaymentAmount_rejects in H.
    unfold PaymentServiceV1.createSplTokenPayment. unfold_m.
    destruct (PaymentServiceV1.validatePaymentAmount amount tokenType);
      [discriminate|split; reflexivity].
Qed.


(** * Further properties of the code *)

(** ** More order facts on binary64 values *)

Lemma leb_positive_not_le_zero (lo x : float) m e :
  Prim2SF lo = S754_finite false m e ->
  (lo <=? x)%float = true -> (x <=? 0)%float = false.
Proof.
  intros Hlo. rewrite !FloatAxioms.leb_spec, Hlo.
  replace (Prim2SF 0) with (S754_zero false) by reflexivity.
  unfold SFleb.
  destruct (Prim2SF x) as [s|s| |s mx ex]; simpl; try congruence.
  - now destruct s.
  - now destruct s.
Qed.

Lemma SFcompare_Lt_trans x y z :
  SFcompare x y = Some Lt ->
  (SFcompare y z = Some Lt \/ SFcompare y z = Some Eq) ->
  SFcompare x z = Some Lt.
Proof.
  destruct x as [sx|sx| |sx mx ex], y as [sy|sy| |sy my ey],
           z as [sz|sz| |sz mz ez]; simpl;
    try (destruct sx); try (destruct sy); try (destruct sz);
    try (intros ? [?|?]; congruence).
  all: change (Pos.compare_cont Eq) with Pos.compare;
    repeat match goal with
           | |- context [Z.compare ?a ?b] => destruct (Z.compare_spec a b)
           end;
    repeat match goal with
           | |- context [Pos.compare ?a ?b] => destruct (Pos.compare_spec a b)
           end;
    simpl; intros ? [?|?]; try congruence; try lia.
Qed.

Lemma ltb_leb_trans (x y z : float) :
  (x <? y)%float = true -> (y <=? z)%float = true -> (x <? z)%float = true.
Proof.
  rewrite !FloatAxioms.ltb_spec, FloatAxioms.leb_spec. unfold SFltb, SFleb.
  intros Hxy Hyz.
  rewrite (SFcompare_Lt_trans (Prim2SF x) (Prim2SF y) (Prim2SF z)); auto.
  - destruct (SFcompare (Prim2SF x) (Prim2SF y)) as [[]|]; congruence.
  - destruct (SFcompare (Prim2SF y) (Prim2SF z)) as [[]|]; auto; congruence.
Qed.

(** ** paymentService.js: validation and builders *)

Lemma bounds_check_passes lo hi amount m e :
  Prim2SF lo = S754_finite false m e ->
  PrimFloat.is_nan hi = false ->
  negb ((lo <=? amount)%float && (amount <=? hi)%float) = false <->
  ((JS.isNaN (JS.parseFloat amount) || (JS.parseFloat amount <=? 0)%float)
   = false /\
   ((JS.parseFloat amount <? lo)%float || (hi <? JS.parseFloat amount)%float)
   = false).
Proof.
  intros Hlo Hhi. unfold JS.isNaN, JS.parseFloat. split.
  - intros [H1 H2]%negb_false_iff%andb_true_iff.
    rewrite (leb_positive_nonzero _ _ _ _ Hlo H1).
    rewrite (leb_not_nan_r _ _ H1), (leb_positive_not_le_zero _ _ _ _ Hlo H1).
    rewrite (leb_ltb_false _ _ H1), (leb_ltb_false _ _ H2). auto.
  - destruct (amount =? 0)%float eqn:Hz.
    { intros [H _]. discriminate H. }
    intros [[Hn _]%orb_false_iff [H1 H2]%orb_false_iff].
    apply negb_false_iff, andb_true_iff. split.
    + apply ltb_false_leb; auto.
      unfold PrimFloat.is_nan. rewrite FloatAxioms.eqb_spec, Hlo.
      unfold SFeqb. now rewrite SFcompare_refl.
    + apply ltb_false_leb; auto.
Qed.

Lemma validate_branch (c : bool) (P : Prop) message :
  (P <-> false = false /\ c = false) ->
  ((if c then Throw message else Ok true) = Ok true <-> true = true /\ P) /\
  (if c then @Throw bool message else Ok true) <> Ok false.
Proof.
  intros H. destruct c; (split; [|discriminate]); split;
    try discriminate; try tauto.
  intros [_ HP]. apply H in HP as [_ ?]. discriminate.
Qed.

Lemma validatePaymentAmount_cases amount tokenType :
  (PaymentServiceV1.validatePaymentAmount amount tokenType = Ok true <->
   known_token tokenType = true /\
   payment_out_of_bounds amount tokenType = false) /\
  PaymentServiceV1.validatePaymentAmount amount tokenType <> Ok false.
Proof.
  unfold PaymentServiceV1.validatePaymentAmount, known_token,
    payment_out_of_bounds.
  pose proof (bounds_check_passes PaymentServiceV1.MIN_SOL
                PaymentServiceV1.MAX_SOL amount _ _ eq_refl eq_refl) as Hsol.
  pose proof (bounds_check_passes PaymentServiceV1.MIN_USDT
                PaymentServiceV1.MAX_USDT amount _ _ eq_refl eq_refl) as Husdt.
  pose proof (bounds_check_passes PaymentServiceV1.MIN_USDC
                PaymentServiceV1.MAX_USDC amount _ _ eq_refl eq_refl) as Husdc.
  destruct (JS.isNaN (JS.parseFloat amount)
            || (JS.parseFloat amount <=? 0)%float).
  - split; [|discriminate]. split; [discriminate|]. intros [_ Hb]. revert Hb.
    destruct (String.eqb _ "SOL"); [intros Hb; apply Hsol in Hb as [? _]; discriminate|].
    destruct (String.eqb _ "USDT");
      [intros Hb; apply Husdt in Hb as [? _]; discriminate|].
    intros Hb. apply Husdc in Hb as [? _]. discriminate.
  - destruct (String.eqb _ "SOL"); cbn [orb].
    { apply validate_branch, Hsol. }
    destruct (String.eqb _ "USDT"); cbn [orb].
    { apply validate_branch, Husdt. }
    destruct (String.eqb _ "USDC"); cbn [orb].
    { apply validate_branch, Husdc. }
    split; [|discriminate]. split; [discriminate|]. intros [? _]. discriminate.
Qed.

(** What an accepted amount satisfies. *)
Lemma validated_in_bounds amount tokenType b :
  PaymentServiceV1.validatePaymentAmount amount tokenType = Ok b ->
  known_token tokenType = true /\
  payment_out_of_bounds amount tokenType = false.
Proof.
  intros H. destruct (validatePaymentAmount_cases amount tokenType) as [Hiff Hf].
  apply Hiff. destruct b; [exact H|contradiction].
Qed.

(** X1. [validatePaymentAmount] accepts an amount exactly when the token
    type is SOL, USDT or USDC in any letter case and the amount lies
    within the bounds of [PAYMENT_CONFIG] for it ([0.05, 1000] for SOL,
    [1, 50000] for the two tokens).  It never returns [false]: it returns
    [true] or throws, and NaN, zero and negative amounts throw. *)
Theorem validatePaymentAmount_accepts_exactly amount tokenType :
  (PaymentServiceV1.validatePaymentAmount amount tokenType = Ok true <->
   known_token tokenType = true /\
   payment_out_of_bounds amount tokenType = false) /\
  PaymentServiceV1.validatePaymentAmount amount tokenType <> Ok false /\
  (JS.isNaN amount = true \/ (amount <=? 0)%float = true ->
   PaymentServiceV1.validatePaymentAmount amount tokenType
   = Throw "Invalid payment amount").
Proof.
  destruct (validatePaymentAmount_cases amount tokenType) as [Hiff Hf].
  split; [exact Hiff|split; [exact Hf|]].
  unfold PaymentServiceV1.validatePaymentAmount, JS.parseFloat, JS.isNaN.
  intros [Hn|Hle].
  - destruct (amount =? 0)%float eqn:Hz.
    + unfold PrimFloat.is_nan in Hn. apply negb_true_iff in Hn.
      revert Hz Hn. rewrite !FloatAxioms.eqb_spec. unfold SFeqb.
      replace (Prim2SF 0) with (S754_zero false) by reflexivity.
      destruct (Prim2SF amount) as [[]|[]| |[] ? ?]; simpl; congruence.
    + rewrite Hn. reflexivity.
  - destruct (amount =? 0)%float; [reflexivity|]. rewrite Hle.
    now rewrite orb_true_r.
Qed.

Lemma validatePaymentAmount_accepts_exactly_witness :
  PaymentServiceV1.validatePaymentAmount (-1) "SOL"
  = Throw "Invalid payment amount".
Proof.
  apply (proj2 (proj2 (validatePaymentAmount_accepts_exactly (-1)%float "SOL"))).
  right. reflexivity.
Defined.

(** ** Computations that only read the world *)

Lemma reads_only_ret {A} (a : A) : reads_only (ret a).
Proof. intros w. reflexivity. Qed.

Lemma reads_only_throw {A} e : reads_only (@throw A e).
Proof. intros w. reflexivity. Qed.

Lemma reads_only_lift {A} (r : Result A) : reads_only (lift r).
Proof. intros w. reflexivity. Qed.

Lemma reads_only_bind {A B} (m : M A) (k : A -> M B) :
  reads_only m -> (forall a, reads_only (k a)) -> reads_only (bind m k).
Proof.
  intros Hm Hk w. unfold bind. specialize (Hm w).
  destruct (m w) as [[a|e] w1]; simpl in *; subst; [apply Hk|reflexivity].
Qed.

Lemma reads_only_try_catch {A} (m : M A) (h : string -> M A) :
  reads_only m -> (forall e, reads_only (h e)) -> reads_only (try_catch m h).
Proof.
  intros Hm Hh w. unfold try_catch. specialize (Hm w).
  destruct (m w) as [[a|e] w1]; simpl in *; subst; [reflexivity|apply Hh].
Qed.

Lemma reads_only_rpc {A} c (answer : World -> Result A) :
  reads_only (Web3.rpc c answer).
Proof. intros w. unfold Web3.rpc. destruct (bool_decide _); reflexivity. Qed.

Lemma reads_only_isPresaleActive env :
  reads_only (TokenService.isPresaleActive env).
Proof. intros w. reflexivity. Qed.

Lemma reads_only_probe endpoints : reads_only (SecureApi.probe endpoints).
Proof.
  intros w. destruct (SecureApi.probe endpoints w) as [r w'] eqn:E.
  apply probe_frame in E. exact E.
Qed.

Ltac read_only :=
  repeat first
    [ apply reads_only_ret | apply reads_only_throw | apply reads_only_lift
    | apply reads_only_rpc | apply reads_only_isPresaleActive
    | apply reads_only_probe
    | apply reads_only_bind | apply reads_only_try_catch
    | progress intros
    | match goal with
      | |- reads_only (match ?x with _ => _ end) => destruct x
      end ].

Lemma reads_only_createPayment env wallet amount tokenType :
  reads_only (PaymentService.createPayment env wallet amount tokenType).
Proof.
  unfold PaymentService.createPayment, PaymentService.createSolPayment,
    PaymentService.createSplTokenPayment. read_only.
Qed.

(** X2. Building a payment, checking a signature, reading a balance and
    choosing an endpoint only read the ledger: whatever the arguments and
    the outcome, nothing is broadcast and the world is left as it was. *)
Theorem builders_and_checks_only_read env :
  (forall wallet amount,
      reads_only (PaymentServiceV1.createSolPayment env wallet amount)) /\
  (forall wallet amount tokenType,
      reads_only (PaymentServiceV1.createSplTokenPayment env wallet amount
                    tokenType)) /\
  (forall signature,
      reads_only (PaymentServiceV1.verifyTransaction env signature)) /\
  (forall wallet amount tokenType,
      reads_only (PaymentService.createPayment env wallet amount tokenType)) /\
  (forall wallet, reads_only (TokenService.getCgtBalance env wallet)) /\
  reads_only (SecureApi.getSecureConnection env).
Proof.
  repeat split; intros.
  - unfold PaymentServiceV1.createSolPayment. read_only.
  - unfold PaymentServiceV1.createSplTokenPayment. read_only.
  - unfold PaymentServiceV1.verifyTransaction. read_only.
  - apply reads_only_createPayment.
  - unfold TokenService.getCgtBalance. read_only.
  - unfold SecureApi.getSecureConnection. read_only.
Qed.

(** X3. When [createSolPayment] of [paymentService.js] returns, the
    amount is within the SOL bounds and the result is an unsigned
    transaction with one native transfer of [Math.floor(solAmount * 1e9)]
    lamports from the payer to the configured receiver, the payer as fee
    payer and the latest blockhash; the expected reward is the amount
    times 7500. *)
Theorem createSolPayment_builds env fromWallet solAmount w payment w' :
  PaymentServiceV1.createSolPayment env fromWallet solAmount w
  = (Ok payment, w') ->
  payment_out_of_bounds solAmount "SOL" = false /\
  exists payer receiver,
    Web3.PublicKey_new (Some fromWallet) = Ok payer /\
    Web3.PublicKey_new (PAYMENT_RECEIVER_WALLET env) = Ok receiver /\
    PaymentServiceV1.transaction payment
    = {| instructions :=
           [SystemTransfer payer receiver
              (JS.Math_floor (solAmount * 1e9)%float)];
         recentBlockhash := Some (latestBlockhash w);
         lastValidBlockHeight := Some (blockHeight w);
         feePayer := Some payer;
         signers := [] |} /\
    PaymentServiceV1.expectedCgt payment = (solAmount * 7500)%float.
Proof.
  unfold PaymentServiceV1.createSolPayment. unfold_m. intros H.
  destruct (PaymentServiceV1.validatePaymentAmount solAmount "SOL")
    as [b|] eqn:Hv; [|discriminate].
  apply validated_in_bounds in Hv as [_ Hb]. split; [exact Hb|].
  destruct (Web3.PublicKey_new (Some fromWallet)) as [payer|]; [|discriminate].
  unfold PaymentServiceV1.RECEIVER_WALLET in H.
  destruct (Web3.PublicKey_new (PAYMENT_RECEIVER_WALLET env)) as [receiver|];
    [|discriminate].
  destruct (bool_decide _); [|discriminate].
  change (TokenService.calculateCgtAmount solAmount "SOL")
    with (@Ok float (solAmount * TokenService.SOL_TO_CGT_RATE)%float) in H.
  injection H as <- <-. exists payer, receiver. repeat split; reflexivity.
Qed.

Lemma createSolPayment_builds_witness :
  exists payment,
    fst (PaymentServiceV1.createSolPayment Sample.env Sample.payer 0.1
           Sample.world) = Ok payment /\
    PaymentServiceV1.expectedCgt payment = 750%float /\
    length (instructions (PaymentServiceV1.transaction payment)) = 1%nat.
Proof.
  destruct (PaymentServiceV1.createSolPayment Sample.env Sample.payer 0.1
              Sample.world) as [[payment|m] w'] eqn:E.
  2:{ exfalso.
      assert (H : is_ok (fst (PaymentServiceV1.createSolPayment Sample.env
                                Sample.payer 0.1 Sample.world)) = true)
        by (vm_compute; reflexivity).
      rewrite E in H. discriminate. }
  exists payment. split; [reflexivity|].
  destruct (createSolPayment_builds _ _ _ _ _ _ E)
    as (_ & payer & receiver & _ & _ & Ht & Hc).
  rewrite Ht, Hc. split; reflexivity.
Defined.

(** X4. When [createSplTokenPayment] of [paymentService.js] returns, the
    amount is within the bounds of the token type and the result is an
    unsigned transfer of [Math.floor(amount * 1e6)] units between the
    associated accounts of payer and receiver.  The mint is USDT only
    for the exact string "USDT": any other accepted token type, "usdt"
    and "SOL" included, builds a USDC transfer, while the expected reward
    still follows the rate of the token type. *)
Theorem createSplTokenPayment_builds env fromWallet amount tokenType w payment w' :
  PaymentServiceV1.createSplTokenPayment env fromWallet amount tokenType w
  = (Ok payment, w') ->
  known_token tokenType = true /\
  payment_out_of_bounds amount tokenType = false /\
  exists payer receiver mint rate,
    Web3.PublicKey_new (Some fromWallet) = Ok payer /\
    Web3.PublicKey_new (PAYMENT_RECEIVER_WALLET env) = Ok receiver /\
    Web3.PublicKey_new
      (Some (if String.eqb tokenType "USDT" then PaymentServiceV1.USDT_MINT
             else PaymentServiceV1.USDC_MINT)) = Ok mint /\
    PaymentServiceV1.transaction payment
    = {| instructions :=
           [TokenTransfer (associatedAddress (lib env) mint payer)
              (associatedAddress (lib env) mint receiver) payer
              (JS.Math_floor (amount * 1e6)%float)];
         recentBlockhash := Some (latestBlockhash w);
         lastValidBlockHeight := Some (blockHeight w);
         feePayer := Some payer;
         signers := [] |} /\
    rewardPerUnit (JS.toUpperCase tokenType) = Some rate /\
    PaymentServiceV1.expectedCgt payment = (amount * rate)%float.
Proof.
  unfold PaymentServiceV1.createSplTokenPayment. unfold_m. intros H.
  destruct (PaymentServiceV1.validatePaymentAmount amount tokenType)
    as [b|] eqn:Hv; [|discriminate].
  apply validated_in_bounds in Hv as [Hk Hb].
  split; [exact Hk|]. split; [exact Hb|].
  destruct (Web3.PublicKey_new (Some fromWallet)) as [payer|]; [|discriminate].
  unfold PaymentServiceV1.RECEIVER_WALLET in H.
  destruct (Web3.PublicKey_new (PAYMENT_RECEIVER_WALLET env)) as [receiver|];
    [|discriminate].
  destruct (Web3.PublicKey_new (Some _)) as [mint|] eqn:Hmint; [|discriminate].
  destruct (bool_decide _); [|discriminate].
  destruct (TokenService.calculateCgtAmount amount tokenType) as [reward|] eqn:Hr;
    [|discriminate].
  apply calculateCgtAmount_rate in Hr as (rate & Hrate & ->).
  injection H as <- <-. exists payer, receiver, mint, rate.
  repeat split; auto.
Qed.

Lemma createSplTokenPayment_builds_witness :
  exists payment mint,
    fst (PaymentServiceV1.createSplTokenPayment Sample.env Sample.payer 1
           "SOL" Sample.world) = Ok payment /\
    Web3.PublicKey_new (Some PaymentServiceV1.USDC_MINT) = Ok mint /\
    instructions (PaymentServiceV1.transaction payment)
    = [TokenTransfer (associatedAddress Sample.library mint Sample.payer_key)
         (associatedAddress Sample.library mint Sample.receiver_key)
         Sample.payer_key 1000000%float] /\
    PaymentServiceV1.expectedCgt payment = 7500%float.
Proof.
  destruct (PaymentServiceV1.createSplTokenPayment Sample.env Sample.payer 1
              "SOL" Sample.world) as [[payment|m] w'] eqn:E.
  2:{ exfalso.
      assert (H : is_ok (fst (PaymentServiceV1.createSplTokenPayment Sample.env
                                Sample.payer 1 "SOL" Sample.world)) = true)
        by (vm_compute; reflexivity).
      rewrite E in H. discriminate. }
  destruct (createSplTokenPayment_builds _ _ _ _ _ _ _ E)
    as (_ & _ & payer & receiver & mint & rate & Hp & Hrc & Hm & Ht & Hrate & Hc).
  exists payment, mint. split; [reflexivity|].
  split; [exact Hm|].
  assert (payer = Sample.payer_key)
    by (unfold Sample.payer_key; fold Sample.payer; rewrite Hp; reflexivity).
  assert (receiver = Sample.receiver_key)
    by (unfold Sample.receiver_key; simpl in Hrc; rewrite Hrc; reflexivity).
  subst. rewrite Ht, Hc. vm_compute in Hrate. injection Hrate as <-.
  split; reflexivity.
Defined.

(** ** tokenService.js: provisioning and transfer *)

(** What [ensureTokenAccount] has done when it returns. *)
Lemma ensureTokenAccount_shape env wallet w r w' :
  TokenService.ensureTokenAccount env wallet w = (Ok r, w') ->
  exists user mintKey,
    Web3.PublicKey_new (Some wallet) = Ok user /\
    Web3.PublicKey_new (CGT_MINT_ADDRESS env) = Ok mintKey /\
    TokenService.ensure_account r = associatedAddress (lib env) mintKey user /\
    ((is_Some (tokenAccounts w !! TokenService.ensure_account r) /\
      TokenService.ensure_signature r = None /\ w' = w) \/
     (exists treasury,
         TokenService.getTreasuryKeypair env = Ok treasury /\
         let creation :=
           treasury_transaction (publicKey treasury)
             [open_account env (publicKey treasury) mintKey user] in
         TokenService.ensure_signature r = Some (signatureOf (lib env) creation) /\
         w' = push creation w)).
Proof.
  unfold TokenService.ensureTokenAccount. unfold_m. intros H.
  destruct (Web3.PublicKey_new (Some wallet)) as [user|]; [|discriminate].
  unfold TokenService.CGT_MINT in H.
  destruct (Web3.PublicKey_new (CGT_MINT_ADDRESS env)) as [mintKey|];
    [|discriminate].
  exists user, mintKey. split; [reflexivity|]. split; [reflexivity|].
  unfold SplToken.getAssociatedTokenAddress in H.
  destruct (bool_decide (TokenService.connection env ∈ live w)) eqn:Hlive.
  - destruct (tokenAccounts w !! associatedAddress (lib env) mintKey user)
      as [units|] eqn:Ha.
    + injection H as <- <-. split; [reflexivity|]. left.
      simpl. rewrite Ha. eauto.
    + destruct (TokenService.getTreasuryKeypair env) as [treasury|];
        [|discriminate].
      repeat (simpl in H; rewrite Hlive in H).
      destruct (confirmed w !! _); [|discriminate].
      injection H as <- <-. split; [reflexivity|]. right.
      exists treasury. repeat split; reflexivity.
  - destruct (TokenService.getTreasuryKeypair env) as [treasury|];
      simpl in H; [|discriminate].
    repeat (simpl in H; rewrite Hlive in H). discriminate.
Qed.



(** What a successful [transferCgtTokens] has broadcast and returned. *)
Lemma transferCgtTokens_shape env wallet amt w r w' :
  TokenService.transferCgtTokens env wallet amt w = (Ok r, w') ->
  exists treasury user mintKey d,
    TokenService.getTreasuryKeypair env = Ok treasury /\
    Web3.PublicKey_new (Some wallet) = Ok user /\
    Web3.PublicKey_new (CGT_MINT_ADDRESS env) = Ok mintKey /\
    mints w !! mintKey = Some d /\
    let payout :=
      treasury_transaction (publicKey treasury)
        [reward_transfer env (publicKey treasury) mintKey user
           (JS.Math_floor (amt * JS.Math_pow 10 d)%float)] in
    let creation :=
      treasury_transaction (publicKey treasury)
        [open_account env (publicKey treasury) mintKey user] in
    (broadcast w' = payout :: broadcast w \/
     broadcast w' = payout :: creation :: broadcast w) /\
    is_Some (confirmed w !! signatureOf (lib env) payout) /\
    r = {| TokenService.success := true;
           TokenService.signature := signatureOf (lib env) payout;
           TokenService.amount := amt;
           TokenService.recipient := wallet |}.
Proof.
  unfold TokenService.transferCgtTokens, TokenService.isPresaleActive.
  unfold_m. intros H.
  destruct (negb _); [discriminate|].
  destruct (TokenService.getTreasuryKeypair env) as [treasury|] eqn:Hk;
    [|discriminate].
  destruct (Web3.PublicKey_new (Some wallet)) as [user|] eqn:Hu; [|discriminate].
  unfold TokenService.CGT_MINT in H.
  destruct (Web3.PublicKey_new (CGT_MINT_ADDRESS env)) as [mintKey|] eqn:Hm;
    [|discriminate].
  destruct (TokenService.ensureTokenAccount env wallet w) as [[e|] w1] eqn:He;
    [|discriminate].
  apply ensureTokenAccount_shape in He
    as (user' & mintKey' & Hu' & Hm' & _ & Hcase).
  rewrite Hu in Hu'. rewrite Hm in Hm'.
  injection Hu' as <-. injection Hm' as <-.
  exists treasury, user, mintKey.
  assert (Hw1 : ledger w1 = ledger w /\
                (broadcast w1 = broadcast w \/
                 broadcast w1 =
                 treasury_transaction (publicKey treasury)
                   [open_account env (publicKey treasury) mintKey user]
                 :: broadcast w)).
  { destruct Hcase as [(_ & _ & ->)|(treasury' & Hk' & _ & ->)].
    - auto.
    - rewrite Hk in Hk'. injection Hk' as <-. split; [reflexivity|].
      right. reflexivity. }
  destruct Hw1 as [Hl Hb]. clear Hcase.
  destruct (bool_decide (TokenService.connection env ∈ live w1)) eqn:Hlive;
    [|discriminate].
  rewrite (ledger_mints _ _ Hl) in H.
  destruct (mints w !! mintKey) as [d|]; [|discriminate].
  exists d. repeat (simpl in H; rewrite ?Hlive in H).
  rewrite (ledger_confirmed _ _ Hl) in H.
  unfold SplToken.getAssociatedTokenAddress in H.
  destruct (confirmed w !! _) as [t|] eqn:Hc; [|discriminate].
  injection H as <- <-.
  repeat split; try reflexivity.
  - simpl. destruct Hb as [Hb|Hb]; rewrite Hb; [left|right]; reflexivity.
  - unfold reward_transfer, treasury_transaction. rewrite <- Hc. eauto.
Qed.

(** X6. A successful [transferCgtTokens] has paid the right party: the
    last transaction broadcast is signed by the treasury alone and holds
    one transfer, from the treasury's associated account to the
    recipient's associated account of the reward mint, of
    [Math.floor(cgtAmount * 10^decimals)] units; before it at most one
    transaction was sent, the one that opens the recipient's account.
    The result echoes the amount and the recipient and carries the
    signature of the transfer. *)
Theorem transferCgtTokens_pays_recipient env userWallet cgtAmount w r w' :
  TokenService.transferCgtTokens env userWallet cgtAmount w = (Ok r, w') ->
  exists treasury user mintKey d payout,
    TokenService.getTreasuryKeypair env = Ok treasury /\
    Web3.PublicKey_new (Some userWallet) = Ok user /\
    Web3.PublicKey_new (CGT_MINT_ADDRESS env) = Ok mintKey /\
    mints w !! mintKey = Some d /\
    payout
    = treasury_transaction (publicKey treasury)
        [reward_transfer env (publicKey treasury) mintKey user
           (JS.Math_floor (cgtAmount * JS.Math_pow 10 d)%float)] /\
    (broadcast w' = payout :: broadcast w \/
     broadcast w'
     = payout
       :: treasury_transaction (publicKey treasury)
            [open_account env (publicKey treasury) mintKey user]
       :: broadcast w) /\
    TokenService.signature r = signatureOf (lib env) payout /\
    TokenService.amount r = cgtAmount /\
    TokenService.recipient r = userWallet /\
    TokenService.success r = true.
Proof.
  intros H.
  apply transferCgtTokens_shape in H
    as (treasury & user & mintKey & d & Hk & Hu & Hm & Hd & Hb & _ & ->).
  exists treasury, user, mintKey, d. eexists.
  repeat split; try eassumption; reflexivity.
Qed.

Lemma transferCgtTokens_pays_recipient_witness :
  exists r w',
    TokenService.transferCgtTokens Sample.env Sample.payer 750 Sample.world
    = (Ok r, w') /\
    TokenService.amount r = 750%float /\
    TokenService.recipient r = Sample.payer.
Proof.
  destruct (TokenService.transferCgtTokens Sample.env Sample.payer 750
              Sample.world) as [[r|m] w'] eqn:E.
  2:{ exfalso.
      assert (H : is_ok (fst (TokenService.transferCgtTokens Sample.env
                                Sample.payer 750 Sample.world)) = true)
        by (vm_compute; reflexivity).
      rewrite E in H. discriminate. }
  exists r, w'. split; [reflexivity|].
  destruct (transferCgtTokens_pays_recipient _ _ _ _ _ _ E)
    as (? & ? & ? & ? & ? & _ & _ & _ & _ & _ & _ & _ & Ha & Hr & _).
  split; assumption.
Defined.
Lemma executeSecureCgtTransfer_success env wallet amt w sig a rcp ts w' :
  SecureApi.executeSecureCgtTransfer env wallet amt w
  = (Ok (SecureApi.TransferOk sig a rcp ts), w') ->
  exists treasury user mintKey d tx t,
    SecureApi.getTreasuryKeypair env = Ok treasury /\
    Web3.PublicKey_new (Some wallet) = Ok user /\
    Web3.PublicKey_new (CGT_MINT_ADDRESS env) = Ok mintKey /\
    mints w !! mintKey = Some d /\
    let payout :=
      reward_transfer env (publicKey treasury) mintKey user
        (JS.Math_floor (amt * JS.Math_pow 10 d)%float) in
    ((is_Some (tokenAccounts w !! associatedAddress (lib env) mintKey user) /\
      tx = treasury_transaction (publicKey treasury) [payout]) \/
     (tokenAccounts w !! associatedAddress (lib env) mintKey user = None /\
      tx = treasury_transaction (publicKey treasury)
             [open_account env (publicKey treasury) mintKey user; payout])) /\
    w' = push tx w /\
    confirmed w !! signatureOf (lib env) tx = Some t /\
    landed_err t = None /\
    sig = signatureOf (lib env) tx /\ a = amt /\ rcp = wallet /\ ts = now w.
Proof.
  unfold SecureApi.executeSecureCgtTransfer, SecureApi.getSecureConnection.
  unfold try_catch at 1. unfold bind at 1. intros H.
  destruct (SecureApi.probe (SecureApi.RPC_ENDPOINTS env) w) as [[c|] w1] eqn:Hp;
    [|discriminate].
  apply probe_frame in Hp as ->.
  unfold_m.
  destruct (SecureApi.getTreasuryKeypair env) as [treasury|] eqn:Hk;
    [|discriminate].
  destruct (Web3.PublicKey_new (Some wallet)) as [user|] eqn:Hu;
    [|discriminate].
  unfold SecureApi.CGT_MINT in H.
  destruct (Web3.PublicKey_new (CGT_MINT_ADDRESS env)) as [mintKey|] eqn:Hm;
    [|discriminate].
  destruct (bool_decide (c ∈ live w)) eqn:Hlive; [|discriminate].
  destruct (mints w !! mintKey) as [d|] eqn:Hd; [|discriminate].
  unfold SplToken.getAssociatedTokenAddress in H.
  exists treasury, user, mintKey, d.
  destruct (tokenAccounts w !! associatedAddress (lib env) mintKey user)
    as [units|] eqn:Ha;
    repeat (simpl in H; rewrite ?Hlive in H);
    match type of H with
    | context [confirmed w !! ?s] =>
        destruct (confirmed w !! s) as [t|] eqn:Hc; [|discriminate]
    end;
    destruct (landed_err t) eqn:Herr; [discriminate| |discriminate|];
    injection H as <- <- <- <- <-;
    eexists; exists t; (do 4 (split; [first [reflexivity|eassumption]|])).
  - split; [left; split; [eauto|reflexivity]|].
    split; [reflexivity|]. split; [exact Hc|]. auto.
  - split; [right; split; reflexivity|].
    split; [reflexivity|]. split; [exact Hc|]. auto.
Qed.

(** The outer [catch] of [executeSecureCgtTransfer]: never a rejection,
    one failure text, at most one transaction sent. *)
Lemma executeSecureCgtTransfer_total env wallet amt w r w' :
  SecureApi.executeSecureCgtTransfer env wallet amt w = (r, w') ->
  exists outcome,
    r = Ok outcome /\
    (forall e, outcome = SecureApi.TransferFailed e ->
               e = "Transfer execution failed") /\
    (w' = w \/ exists tx, w' = push tx w).
Proof.
  unfold SecureApi.executeSecureCgtTransfer, SecureApi.getSecureConnection.
  unfold try_catch at 1. unfold bind at 1. intros H.
  assert (Hfail : (Ok (SecureApi.TransferFailed "Transfer execution failed"), w)
                  = (r, w') ->
                  exists outcome,
                    r = Ok outcome /\
                    (forall e, outcome = SecureApi.TransferFailed e ->
                               e = "Transfer execution failed") /\
                    (w' = w \/ exists tx, w' = push tx w)).
  { intros [= <- <-]. eexists. split; [reflexivity|].
    split; [congruence|left; reflexivity]. }
  destruct (SecureApi.probe (SecureApi.RPC_ENDPOINTS env) w) as [[c|] w1] eqn:Hp;
    apply probe_frame in Hp as ->; [|exact (Hfail H)].
  unfold_m.
  destruct (SecureApi.getTreasuryKeypair env) as [treasury|];
    [|exact (Hfail H)].
  destruct (Web3.PublicKey_new (Some wallet)) as [user|]; [|exact (Hfail H)].
  destruct (Web3.PublicKey_new (SecureApi.CGT_MINT env)) as [mintKey|];
    [|exact (Hfail H)].
  destruct (bool_decide (c ∈ live w)) eqn:Hlive; [|exact (Hfail H)].
  destruct (mints w !! mintKey) as [d|]; [|exact (Hfail H)].
  clear Hfail. unfold SplToken.getAssociatedTokenAddress in H.
  destruct (tokenAccounts w !! associatedAddress (lib env) mintKey
              user) as [units|];
    repeat (simpl in H; rewrite ?Hlive in H);
    match type of H with
    | context [confirmed w !! ?s] =>
        destruct (confirmed w !! s) as [t|]
    end; simpl in H;
    try destruct (landed_err t); simpl in H;
    injection H as <- <-;
    eexists; (split; [reflexivity|]); (split; [congruence|right; eauto]).
Qed.

(** X7. [executeSecureCgtTransfer] never rejects and sends at most one
    transaction.  A failure carries the one text "Transfer execution
    failed".  A success means that one transaction, signed by the treasury
    alone, was sent and was confirmed without an execution error; it ends
    with the transfer of [Math.floor(cgtAmount * 10^decimals)] units from
    the treasury's associated account to the recipient's, and it opens the
    recipient's account first, in the same transaction, exactly when the
    ledger has no such account.  The result echoes amount and recipient
    and is stamped with the clock. *)
Theorem executeSecureCgtTransfer_one_transaction env recipientWallet cgtAmount
    w r w' :
  SecureApi.executeSecureCgtTransfer env recipientWallet cgtAmount w = (r, w') ->
  exists outcome,
    r = Ok outcome /\
    (w' = w \/ exists tx, w' = push tx w) /\
    match outcome with
    | SecureApi.TransferFailed e => e = "Transfer execution failed"
    | SecureApi.TransferOk sig amt rcp ts =>
        amt = cgtAmount /\ rcp = recipientWallet /\ ts = now w /\
        exists treasury user mintKey d tx t,
          SecureApi.getTreasuryKeypair env = Ok treasury /\
          Web3.PublicKey_new (Some recipientWallet) = Ok user /\
          Web3.PublicKey_new (CGT_MINT_ADDRESS env) = Ok mintKey /\
          mints w !! mintKey = Some d /\
          w' = push tx w /\
          sig = signatureOf (lib env) tx /\
          confirmed w !! sig = Some t /\ landed_err t = None /\
          signers tx = [publicKey treasury] /\
          instructions tx
          = (match tokenAccounts w !! associatedAddress (lib env) mintKey user
             with
             | Some _ => []
             | None => [open_account env (publicKey treasury) mintKey user]
             end
             ++ [reward_transfer env (publicKey treasury) mintKey user
                   (JS.Math_floor (cgtAmount * JS.Math_pow 10 d)%float)])%list
    end.
Proof.
  intros H. destruct (executeSecureCgtTransfer_total _ _ _ _ _ _ H)
    as (outcome & -> & Htext & Hsent).
  exists outcome. split; [reflexivity|]. split; [exact Hsent|].
  destruct outcome as [sig amt rcp ts|e]; [|now apply Htext].
  apply executeSecureCgtTransfer_success in H
    as (treasury & user & mintKey & d & tx & t & Hk & Hu & Hm & Hd & Htx
        & -> & Hc & Herr & -> & -> & -> & ->).
  do 3 (split; [reflexivity|]).
  exists treasury, user, mintKey, d, tx, t.
  do 5 (split; [first [assumption|reflexivity]|]).
  split; [reflexivity|]. split; [exact Hc|]. split; [exact Herr|].
  destruct Htx as [[[units Ha] ->]|[Ha ->]]; rewrite Ha; split; reflexivity.
Qed.

Lemma executeSecureCgtTransfer_one_transaction_witness :
  exists outcome,
    fst (SecureApi.executeSecureCgtTransfer Sample.env Sample.payer 750
           Sample.world) = Ok outcome /\
    (forall e, outcome <> SecureApi.TransferFailed e) /\
    length (broadcast (snd (SecureApi.executeSecureCgtTransfer Sample.env
                              Sample.payer 750 Sample.world))) = 1%nat.
Proof.
  destruct (SecureApi.executeSecureCgtTransfer Sample.env Sample.payer 750
              Sample.world) as [r w'] eqn:E.
  destruct (executeSecureCgtTransfer_one_transaction _ _ _ _ _ _ E)
    as (outcome & -> & Hsent & Hshape).
  assert (Hok : match fst (SecureApi.executeSecureCgtTransfer Sample.env
                             Sample.payer 750 Sample.world) with
                | Ok (SecureApi.TransferOk _ _ _ _) => true
                | _ => false
                end = true) by (vm_compute; reflexivity).
  rewrite E in Hok. simpl in Hok.
  exists outcome. split; [reflexivity|].
  destruct outcome as [sig amt rcp ts|e]; [|discriminate].
  split; [discriminate|].
  destruct Hshape as (_ & _ & _ & ? & ? & ? & ? & tx & ? & _ & _ & _ & _
                      & -> & _).
  reflexivity.
Defined.

(** X8. The two disbursement paths pay the same way.  When
    [transferCgtTokens] and [executeSecureCgtTransfer] both succeed for
    one recipient and one amount on one ledger, the transaction each sent
    last is signed by the same key and carries the same single token
    transfer: same source account, same destination account, same
    authority, same units. *)
Theorem disbursement_paths_send_same_transfer env wallet cgtAmount w
    r w1 sig amt rcp ts w2 :
  TokenService.transferCgtTokens env wallet cgtAmount w = (Ok r, w1) ->
  SecureApi.executeSecureCgtTransfer env wallet cgtAmount w
  = (Ok (SecureApi.TransferOk sig amt rcp ts), w2) ->
  exists t1 rest1 t2 rest2 payout,
    broadcast w1 = t1 :: rest1 /\
    broadcast w2 = t2 :: rest2 /\
    is_token_transfer payout = true /\
    List.filter is_token_transfer (instructions t1) = [payout] /\
    List.filter is_token_transfer (instructions t2) = [payout] /\
    signers t1 = signers t2.
Proof.
  intros H1 H2.
  apply transferCgtTokens_shape in H1
    as (treasury & user & mintKey & d & Hk & Hu & Hm & Hd & Hb & _ & _).
  apply executeSecureCgtTransfer_success in H2
    as (treasury' & user' & mintKey' & d' & tx & t & Hk' & Hu' & Hm' & Hd'
        & Htx & -> & _).
  change (SecureApi.getTreasuryKeypair env)
    with (TokenService.getTreasuryKeypair env) in Hk'.
  rewrite Hk in Hk'. rewrite Hu in Hu'. rewrite Hm in Hm'.
  injection Hk' as <-. injection Hu' as <-. injection Hm' as <-.
  rewrite Hd in Hd'. injection Hd' as <-.
  set (payout := reward_transfer env (publicKey treasury) mintKey user
                    (JS.Math_floor (cgtAmount * JS.Math_pow 10 d)%float)) in *.
  assert (Hlast : exists rest1,
             broadcast w1
             = treasury_transaction (publicKey treasury) [payout] :: rest1)
    by (destruct Hb as [Hb|Hb]; rewrite Hb; eauto).
  destruct Hlast as [rest1 Hlast].
  exists (treasury_transaction (publicKey treasury) [payout]), rest1.
  exists tx, (broadcast w), payout.
  split; [exact Hlast|].
  split; [reflexivity|]. split; [reflexivity|]. split; [reflexivity|].
  destruct Htx as [[_ ->]|[_ ->]]; split; reflexivity.
Qed.

Lemma disbursement_paths_send_same_transfer_witness :
  exists w1 w2 payout,
    snd (TokenService.transferCgtTokens Sample.env Sample.payer 750
           Sample.world) = w1 /\
    snd (SecureApi.executeSecureCgtTransfer Sample.env Sample.payer 750
           Sample.world) = w2 /\
    is_token_transfer payout = true /\
    (List.filter is_token_transfer <$> (instructions <$> head (broadcast w1)))
    = Some [payout] /\
    (List.filter is_token_transfer <$> (instructions <$> head (broadcast w2)))
    = Some [payout].
Proof.
  destruct (TokenService.transferCgtTokens Sample.env Sample.payer 750
              Sample.world) as [[r|m] w1] eqn:E1.
  2:{ exfalso.
      assert (H : is_ok (fst (TokenService.transferCgtTokens Sample.env
                                Sample.payer 750 Sample.world)) = true)
        by (vm_compute; reflexivity).
      rewrite E1 in H. discriminate. }
  destruct (SecureApi.executeSecureCgtTransfer Sample.env Sample.payer 750
              Sample.world) as [[[sig amt rcp ts|e]|m] w2] eqn:E2.
  2,3: exfalso;
       assert (H : match fst (SecureApi.executeSecureCgtTransfer Sample.env
                                Sample.payer 750 Sample.world) with
                   | Ok (SecureApi.TransferOk _ _ _ _) => true
                   | _ => false
                   end = true) by (vm_compute; reflexivity);
       rewrite E2 in H; discriminate.
  destruct (disbursement_paths_send_same_transfer _ _ _ _ _ _ _ _ _ _ _ E1 E2)
    as (t1 & rest1 & t2 & rest2 & payout & Hb1 & Hb2 & Hp & Hf1 & Hf2 & _).
  exists w1, w2, payout. simpl. rewrite Hb1, Hb2. simpl.
  rewrite Hf1, Hf2. auto.
Defined.

(** ** The verification path drops the execution status of its own transfer *)

Lemma commutes_confirm_discarded {A} (f : Landed -> Landed) c s (k : M A) :
  commutes (relabel f) k ->
  commutes (relabel f) (let* _ := Web3.confirmTransaction c s in k).
Proof.
  intros Hk w. unfold bind, Web3.confirmTransaction, Web3.rpc. simpl.
  rewrite lookup_fmap.
  destruct (bool_decide (c ∈ live w)); [|reflexivity].
  destruct (confirmed w !! s); simpl; [apply Hk|reflexivity].
Qed.

Ltac commute_any :=
  repeat first
    [ apply commutes_ret | apply commutes_throw | apply commutes_lift
    | apply commutes_confirm_discarded | apply commutes_sendTransaction
    | apply commutes_getAccount | apply commutes_getMint
    | apply commutes_isPresaleActive
    | apply commutes_bind | apply commutes_try_catch
    | progress intros
    | match goal with |- commutes _ (match ?x with _ => _ end) => destruct x end ].

Lemma ensureTokenAccount_any_status f env wallet :
  commutes (relabel f) (TokenService.ensureTokenAccount env wallet).
Proof. unfold TokenService.ensureTokenAccount. commute_any. Qed.

Lemma transferCgtTokens_any_status f env wallet amt :
  commutes (relabel f) (TokenService.transferCgtTokens env wallet amt).
Proof.
  unfold TokenService.transferCgtTokens. commute_any.
Qed.

(** X9. [transferCgtTokens] awaits [confirmTransaction] and drops what it
    returns.  Its result and the transactions it sends are therefore the
    same whatever the confirmed transactions contain, their execution
    error included: a reward transfer that executed with an error is
    reported with [success: true].  [executeSecureCgtTransfer] goes
    through [sendAndConfirmTransaction] instead and never reports success
    on a ledger where every confirmed transaction carries an error. *)
Theorem transferCgtTokens_drops_execution_status env userWallet cgtAmount :
  (forall (f : Landed -> Landed) w,
      fst (TokenService.transferCgtTokens env userWallet cgtAmount (relabel f w))
      = fst (TokenService.transferCgtTokens env userWallet cgtAmount w) /\
      broadcast
        (snd (TokenService.transferCgtTokens env userWallet cgtAmount
                (relabel f w)))
      = broadcast
          (snd (TokenService.transferCgtTokens env userWallet cgtAmount w))) /\
  (forall (f : Landed -> Landed) w sig amt rcp ts,
      (forall t, landed_err (f t) <> None) ->
      fst (SecureApi.executeSecureCgtTransfer env userWallet cgtAmount
             (relabel f w))
      <> Ok (SecureApi.TransferOk sig amt rcp ts)).
Proof.
  split.
  - intros f w. rewrite (transferCgtTokens_any_status f env userWallet cgtAmount w).
    split; reflexivity.
  - intros f w sig amt rcp ts Hf H.
    destruct (SecureApi.executeSecureCgtTransfer env userWallet cgtAmount
                (relabel f w)) as [r w'] eqn:E.
    simpl in H. subst r.
    apply executeSecureCgtTransfer_success in E
      as (? & ? & ? & ? & tx & t & _ & _ & _ & _ & _ & _ & Hc & Herr & _).
    simpl in Hc. rewrite lookup_fmap in Hc.
    destruct (confirmed w !! signatureOf (lib env) tx) as [t0|];
      [|discriminate].
    injection Hc as <-. now apply (Hf t0).
Qed.

Lemma transferCgtTokens_drops_execution_status_witness :
  is_ok (fst (TokenService.transferCgtTokens Sample.env Sample.payer 750
                (relabel Scenario.failed Sample.world))) = true /\
  forall sig amt rcp ts,
    fst (SecureApi.executeSecureCgtTransfer Sample.env Sample.payer 750
           (relabel Scenario.failed Sample.world))
    <> Ok (SecureApi.TransferOk sig amt rcp ts).
Proof.
  split.
  - rewrite (proj1 (proj1 (transferCgtTokens_drops_execution_status Sample.env
                             Sample.payer 750) Scenario.failed Sample.world)).
    vm_compute. reflexivity.
  - intros sig amt rcp ts.
    apply (proj2 (transferCgtTokens_drops_execution_status Sample.env
                    Sample.payer 750)).
    intros t. discriminate.
Defined.

(** ** POST /api/transfer-cgt *)




(** ** A treasury key that cannot be used *)

Lemma getTreasuryKeypair_message env :
  is_ok (SecureApi.getTreasuryKeypair env) = false ->
  SecureApi.getTreasuryKeypair env = Throw "Invalid treasury private key".
Proof.
  unfold SecureApi.getTreasuryKeypair.
  destruct (SecureApi.TREASURY_PRIVATE_KEY env) as [key|]; [|reflexivity].
  destruct (rbind _ _); [discriminate|reflexivity].
Qed.

Lemma transferCgtTokens_without_key env wallet cgtAmount w :
  is_ok (SecureApi.getTreasuryKeypair env) = false ->
  exists message,
    TokenService.transferCgtTokens env wallet cgtAmount w = (Throw message, w) /\
    (fst (TokenService.isPresaleActive env w) = Ok true ->
     message = "Failed to transfer CGT tokens: Invalid treasury private key").
Proof.
  intros Hkey%getTreasuryKeypair_message.
  unfold TokenService.transferCgtTokens, TokenService.isPresaleActive.
  change (TokenService.getTreasuryKeypair env)
    with (SecureApi.getTreasuryKeypair env).
  rewrite Hkey. unfold_m.
  destruct (negb _) eqn:Ha; simpl; eexists; (split; [reflexivity|]); [|auto].
  intros [= Hb]. rewrite Hb in Ha. discriminate.
Qed.

(** X11. When no key pair can be built from TREASURY_PRIVATE_KEY (absent,
    not base58, or of the wrong length), no path sends anything.
    [executeSecureCgtTransfer] returns its failure object;
    [transferCgtTokens] throws, during the presale with the text "Failed
    to transfer CGT tokens: Invalid treasury private key"; and
    [verifyPayment] throws for every signature. *)
Theorem unusable_treasury_key_sends_nothing env wallet amount w :
  is_ok (SecureApi.getTreasuryKeypair env) = false ->
  SecureApi.executeSecureCgtTransfer env wallet amount w
  = (Ok (SecureApi.TransferFailed "Transfer execution failed"), w) /\
  snd (TokenService.transferCgtTokens env wallet amount w) = w /\
  is_ok (fst (TokenService.transferCgtTokens env wallet amount w)) = false /\
  (fst (TokenService.isPresaleActive env w) = Ok true ->
   fst (TokenService.transferCgtTokens env wallet amount w)
   = Throw "Failed to transfer CGT tokens: Invalid treasury private key") /\
  (forall signature tokenType,
      snd (PaymentService.verifyPayment env signature wallet amount tokenType w)
      = w /\
      is_ok (fst (PaymentService.verifyPayment env signature wallet amount
                    tokenType w)) = false).
Proof.
  intros Hkey.
  destruct (transferCgtTokens_without_key env wallet amount w Hkey)
    as (message & Et & Hm).
  split; [|rewrite Et; split; [reflexivity|split; [reflexivity|split]]].
  - pose proof (getTreasuryKeypair_message env Hkey) as Hthrow.
    destruct (SecureApi.executeSecureCgtTransfer env wallet amount w)
      as [r w'] eqn:E.
    destruct (executeSecureCgtTransfer_total _ _ _ _ _ _ E)
      as (outcome & -> & Htext & _).
    destruct outcome as [sig amt rcp ts|e].
    + apply executeSecureCgtTransfer_success in E
        as (treasury & ? & ? & ? & ? & ? & Hk & _).
      rewrite Hthrow in Hk. discriminate.
    + rewrite (Htext e eq_refl).
      revert E. unfold SecureApi.executeSecureCgtTransfer,
        SecureApi.getSecureConnection.
      rewrite Hthrow. unfold try_catch at 1. unfold bind at 1.
      destruct (SecureApi.probe (SecureApi.RPC_ENDPOINTS env) w)
        as [[c|] w1] eqn:Hp; apply probe_frame in Hp as ->;
        unfold_m; intros [= _ <-]; reflexivity.
  - intros H. simpl. now rewrite (Hm H).
  - intros signature tokenType.
    unfold PaymentService.verifyPayment. unfold_m.
    destruct (PaymentService.first_endpoint env) as [c|]; [|auto].
    destruct (bool_decide (c ∈ live w)); [|auto].
    destruct (confirmed w !! signature) as [t|]; [|auto].
    simpl. destruct (landed_err t); [auto|].
    destruct (TokenService.calculateCgtAmount amount tokenType) as [cgt|];
      [|auto].
    destruct (transferCgtTokens_without_key env wallet cgt w Hkey)
      as (message' & -> & _).
    auto.
Qed.

Lemma unusable_treasury_key_sends_nothing_witness :
  SecureApi.startup Sample.env_short_key = SecureApi.Listening "127.0.0.1" /\
  SecureApi.executeSecureCgtTransfer Sample.env_short_key Sample.payer 750
    Sample.world
  = (Ok (SecureApi.TransferFailed "Transfer execution failed"), Sample.world).
Proof.
  split; [vm_compute; reflexivity|].
  apply (unusable_treasury_key_sends_nothing Sample.env_short_key Sample.payer
           750 Sample.world).
  vm_compute. reflexivity.
Defined.

(** ** getCgtBalance *)



(** ** The payment service behind POST /api/payment/create *)


(** X13. [createPayment] checks the presale window before anything else:
    outside the window it throws "Failed to create payment: Presale is
    not active" whatever the wallet, the amount and the token type are.
    Every failure it raises starts with "Failed to create payment: ", and
    it never sends a transaction. *)
Theorem createPayment_presale_first env wallet amount tokenType w :
  snd (PaymentService.createPayment env wallet amount tokenType w) = w /\
  (fst (TokenService.isPresaleActive env w) = Ok false ->
   fst (PaymentService.createPayment env wallet amount tokenType w)
   = Throw "Failed to create payment: Presale is not active") /\
  (forall message,
      fst (PaymentService.createPayment env wallet amount tokenType w)
      = Throw message ->
      exists cause, message = "Failed to create payment: " +:+ cause).
Proof.
  split; [|split].
  - apply reads_only_createPayment.
  - unfold PaymentService.createPayment, TokenService.isPresaleActive.
    unfold_m. simpl. intros [= ->]. reflexivity.
  - unfold PaymentService.createPayment.
    unfold try_catch at 1.
    destruct (bind _ _ w) as [[data|cause] w1]; simpl.
    + discriminate.
    + unfold throw. simpl. intros message [= <-]. eauto.
Qed.



(** ** Sending comes before confirming *)



(** ** verifyTransaction of paymentService.js *)

(** X16. [verifyTransaction] returns [true] or throws; it never returns
    [false].  It returns [true] exactly when the endpoint answers and
    reports the signature confirmed with no execution error: the same
    test, and the only one, that [verifyPayment] applies.  A transaction
    that executed with an error gives "Transaction verification failed:
    Transaction failed". *)
Theorem verifyTransaction_true_or_throws env signature w :
  (fst (PaymentServiceV1.verifyTransaction env signature w) = Ok true <->
   bool_decide (PaymentServiceV1.connection env ∈ live w) = true /\
   exists t, confirmed w !! signature = Some t /\ landed_err t = None) /\
  fst (PaymentServiceV1.verifyTransaction env signature w) <> Ok false /\
  (forall t e,
      bool_decide (PaymentServiceV1.connection env ∈ live w) = true ->
      confirmed w !! signature = Some t -> landed_err t = Some e ->
      fst (PaymentServiceV1.verifyTransaction env signature w)
      = Throw "Transaction verification failed: Transaction failed").
Proof.
  unfold PaymentServiceV1.verifyTransaction. unfold_m.
  destruct (bool_decide (PaymentServiceV1.connection env ∈ live w)).
  2:{ simpl. split; [split; [discriminate|intros [? _]; discriminate]|].
      split; [discriminate|discriminate]. }
  destruct (confirmed w !! signature) as [t|]; simpl.
  2:{ split; [split; [discriminate|intros (_ & ? & ? & _); discriminate]|].
      split; [discriminate|discriminate]. }
  destruct (landed_err t) as [e|] eqn:Herr; simpl.
  - split; [split; [discriminate|]|split; [discriminate|reflexivity]].
    intros (_ & t' & [= <-] & H). congruence.
  - split; [split; [eauto|reflexivity]|split; [discriminate|]].
    intros t' e _ [= <-] H. congruence.
Qed.

(** ** The presale routes *)

(** X17. GET /api/presale/status reports "ended" exactly after
    PRESALE_END, "active" exactly within [PRESALE_START, PRESALE_END],
    and "upcoming" otherwise; the time left is never negative, is the
    time to the end while active and the time to the start while
    upcoming.  "active" is reported exactly when [isPresaleActive] holds,
    that is, exactly when [transferCgtTokens] passes its presale gate. *)
Theorem presale_status_follows_window env w :
  let answer := PresaleRoutes.get_presale_status env w in
  PresaleRoutes.success answer = true /\
  0 <= PresaleRoutes.timeLeft answer /\
  (PresaleRoutes.status answer = "ended" <-> PRESALE_END env < now w) /\
  (PresaleRoutes.status answer = "active" <->
   PRESALE_START env <= now w <= PRESALE_END env) /\
  (PresaleRoutes.status answer = "active" <->
   fst (TokenService.isPresaleActive env w) = Ok true) /\
  (PresaleRoutes.status answer = "active" ->
   PresaleRoutes.timeLeft answer = PRESALE_END env - now w) /\
  (PresaleRoutes.status answer = "upcoming" ->
   now w < PRESALE_START env /\
   PresaleRoutes.timeLeft answer = PRESALE_START env - now w) /\
  (PresaleRoutes.status answer = "ended" \/
   PresaleRoutes.status answer = "active" \/
   PresaleRoutes.status answer = "upcoming").
Proof.
  unfold PresaleRoutes.get_presale_status, TokenService.isPresaleActive.
  simpl.
  destruct (Z.ltb_spec (PRESALE_END env) (now w)) as [He|He]; simpl.
  - assert (Hin : (PRESALE_START env <=? now w) && (now w <=? PRESALE_END env)
                  = false).
    { apply andb_false_iff. right. apply Z.leb_gt. exact He. }
    rewrite Hin.
    repeat split; try discriminate; try lia; auto.
  - destruct (Z.leb_spec (PRESALE_START env) (now w)) as [Hs|Hs]; simpl.
    + assert (Hle : (now w <=? PRESALE_END env) = true)
        by (apply Z.leb_le; exact He).
      rewrite Hle. simpl.
      repeat split; try discriminate; try lia; auto.
    + repeat split; try discriminate; try lia; auto.
Qed.

(** X18. The countdown of GET /api/presale/stats.  Until PRESALE_END the
    four figures are the days, hours, minutes and whole seconds of the
    time left: hours below 24, minutes and seconds below 60, and together
    they fall short of the time left by less than a second.  After
    PRESALE_END the handler keeps counting: [days] is negative and no
    figure is positive.  [active] is the presale test. *)
Theorem presale_stats_countdown env w :
  let stats := PresaleRoutes.get_presale_stats env w in
  let c := PresaleRoutes.countdown stats in
  let left := PRESALE_END env - now w in
  (PresaleRoutes.active stats = true <->
   PRESALE_START env <= now w <= PRESALE_END env) /\
  (0 <= left ->
   0 <= PresaleRoutes.days c /\
   0 <= PresaleRoutes.hours c < 24 /\
   0 <= PresaleRoutes.minutes c < 60 /\
   0 <= PresaleRoutes.seconds c < 60 /\
   0 <= left - (PresaleRoutes.days c * 86400000
                + PresaleRoutes.hours c * 3600000
                + PresaleRoutes.minutes c * 60000
                + PresaleRoutes.seconds c * 1000) < 1000) /\
  (left < 0 ->
   PresaleRoutes.days c < 0 /\
   PresaleRoutes.hours c <= 0 /\
   PresaleRoutes.minutes c <= 0 /\
   PresaleRoutes.seconds c <= 0).
Proof.
  unfold PresaleRoutes.get_presale_stats, PresaleRoutes.floor_div,
    TokenService.isPresaleActive.
  cbn [fst PresaleRoutes.countdown PresaleRoutes.active PresaleRoutes.days
       PresaleRoutes.hours PresaleRoutes.minutes PresaleRoutes.seconds].
  change (1000 * 60 * 60 * 24) with 86400000.
  change (1000 * 60 * 60) with 3600000.
  change (1000 * 60) with 60000.
  set (left := PRESALE_END env - now w).
  split; [|split].
  - rewrite andb_true_iff, !Z.leb_le. reflexivity.
  - intros Hpos.
    rewrite !Z.rem_mod_nonneg by lia.
    assert (E1 : (left mod 86400000) mod 3600000 = left mod 3600000)
      by (apply Z.mod_mod_divide; exists 24; reflexivity).
    assert (E2 : (left mod 3600000) mod 60000 = left mod 60000)
      by (apply Z.mod_mod_divide; exists 60; reflexivity).
    pose proof (Z.div_mod left 86400000 ltac:(lia)) as D1.
    pose proof (Z.div_mod (left mod 86400000) 3600000 ltac:(lia)) as D2.
    pose proof (Z.div_mod (left mod 3600000) 60000 ltac:(lia)) as D3.
    pose proof (Z.div_mod (left mod 60000) 1000 ltac:(lia)) as D4.
    rewrite E1 in D2. rewrite E2 in D3.
    pose proof (Z.mod_pos_bound left 86400000 ltac:(lia)) as B1.
    pose proof (Z.mod_pos_bound left 3600000 ltac:(lia)) as B2.
    pose proof (Z.mod_pos_bound left 60000 ltac:(lia)) as B3.
    pose proof (Z.mod_pos_bound (left mod 60000) 1000 ltac:(lia)) as B4.
    revert D1 D2 D3 D4 B1 B2 B3 B4.
    generalize (left / 86400000), ((left mod 86400000) / 3600000),
      ((left mod 3600000) / 60000), ((left mod 60000) / 1000),
      (left mod 86400000), (left mod 3600000), (left mod 60000),
      ((left mod 60000) mod 1000).
    intros d h m s r1 r2 r3 r4. lia.
  - intros Hneg.
    assert (Hrem : forall b, 0 < b -> Z.rem left b <= 0)
      by (intros b Hb; apply Z.rem_nonpos; lia).
    assert (Hdiv : forall a b, 0 < b -> a <= 0 -> a / b <= 0)
      by (intros a b Hb Ha; apply Z.div_le_upper_bound; lia).
    repeat split.
    + apply Z.div_lt_upper_bound; lia.
    + apply Hdiv; [lia|]. apply Hrem. lia.
    + apply Hdiv; [lia|]. apply Hrem. lia.
    + apply Hdiv; [lia|]. apply Hrem. lia.
Qed.

(** ** The risk score of the token scanner *)

Lemma ltb_nan_l (x y : float) :
  PrimFloat.is_nan x = true -> (x <? y)%float = false.
Proof.
  unfold PrimFloat.is_nan.
  rewrite FloatAxioms.eqb_spec, FloatAxioms.ltb_spec. unfold SFeqb, SFltb.
  destruct (Prim2SF x) as [s|s| |s m e]; simpl; try reflexivity.
  - now destruct s.
  - now destruct s.
  - rewrite Z.compare_refl, Pos.compare_cont_refl. now destruct s.
Qed.

Lemma ltb_nan_r (x y : float) :
  PrimFloat.is_nan y = true -> (x <? y)%float = false.
Proof.
  unfold PrimFloat.is_nan.
  rewrite FloatAxioms.eqb_spec, FloatAxioms.ltb_spec. unfold SFeqb, SFltb.
  destruct (Prim2SF y) as [s|s| |s m e]; simpl.
  - now destruct s.
  - now destruct s.
  - intros _. now destruct (Prim2SF x) as [[]|[]| |[] ? ?].
  - rewrite Z.compare_refl, Pos.compare_cont_refl. now destruct s.
Qed.

Lemma div_nan_r (x y : float) :
  PrimFloat.is_nan y = true -> PrimFloat.is_nan (x / y) = true.
Proof.
  unfold PrimFloat.is_nan.
  rewrite !FloatAxioms.eqb_spec, FloatAxioms.div_spec. unfold SFeqb.
  destruct (Prim2SF y) as [s|s| |s m e]; simpl.
  - now destruct s.
  - now destruct s.
  - intros _. now destruct (Prim2SF x) as [[]|[]| |[] ? ?].
  - rewrite Z.compare_refl, Pos.compare_cont_refl. now destruct s.
Qed.

(** X19. [calculateRiskScore] returns a multiple of 10 between 0 and
    100.  The category derived from it is "High" only if the token has
    fewer than 100 holders or less than 50000 USD of liquidity: volume
    and concentration alone reach 60 at most.  It is "Low" only if
    neither of those two tests fires. *)
Theorem risk_score_range data :
  let score := Scanner.calculateRiskScore data in
  0 <= score <= 100 /\
  score mod 10 = 0 /\
  (Scanner.riskCategory score = "High" ->
   (Scanner.holders data <? 100)%float = true \/
   (Scanner.liquidityUsd data <? 50000)%float = true) /\
  (Scanner.riskCategory score = "Low" ->
   (Scanner.holders data <? 100)%float = false /\
   (Scanner.liquidityUsd data <? 50000)%float = false).
Proof.
  unfold Scanner.calculateRiskScore, Scanner.riskCategory.
  generalize (Scanner.top1 data / Scanner.totalSupply data)%float,
    (Scanner.sumTop10 data / Scanner.totalSupply data)%float.
  intros q1 q10.
  generalize (0.5 <? q1)%float, (0.7 <? q10)%float,
    (Scanner.holders data <? 100)%float,
    (Scanner.liquidityUsd data <? 50000)%float,
    (Scanner.volumeUsd24h data <? 10000)%float.
  intros [] [] [] [] []; vm_compute; repeat split; auto; discriminate.
Qed.

(** X20. A token about which the provider reports nothing is rated
    "Low".  When holders, liquidity, volume and total supply are all
    missing (they read as NaN), every comparison of [calculateRiskScore]
    is false, the score is 0 and the category is "Low", whatever the
    holder distribution is. *)
Theorem unknown_token_rated_low data :
  PrimFloat.is_nan (Scanner.holders data) = true ->
  PrimFloat.is_nan (Scanner.liquidityUsd data) = true ->
  PrimFloat.is_nan (Scanner.volumeUsd24h data) = true ->
  PrimFloat.is_nan (Scanner.totalSupply data) = true ->
  Scanner.calculateRiskScore data = 0 /\
  Scanner.riskCategory (Scanner.calculateRiskScore data) = "Low".
Proof.
  intros Hh Hl Hv Hs.
  assert (E : Scanner.calculateRiskScore data = 0).
  { unfold Scanner.calculateRiskScore.
    rewrite (ltb_nan_l _ _ Hh), (ltb_nan_l _ _ Hl), (ltb_nan_l _ _ Hv).
    rewrite (ltb_nan_r _ _ (div_nan_r (Scanner.top1 data) _ Hs)).
    rewrite (ltb_nan_r _ _ (div_nan_r (Scanner.sumTop10 data) _ Hs)).
    reflexivity. }
  rewrite E. split; reflexivity.
Qed.

Lemma unknown_token_rated_low_witness :
  Scanner.riskCategory
    (Scanner.calculateRiskScore
       {| Scanner.totalSupply := nan; Scanner.holders := nan;
          Scanner.priceUsd := 1; Scanner.liquidityUsd := nan;
          Scanner.volumeUsd24h := nan;
          Scanner.holdersDistribution :=
            [{| Scanner.address := "whale"; Scanner.amount := 1000000 |}] |})
  = "Low".
Proof.
  apply unknown_token_rated_low; reflexivity.
Defined.

(** ** The advertised ranges and the validator *)

Lemma SFcompare_le_trans x y z :
  (SFcompare x y = Some Lt \/ SFcompare x y = Some Eq) ->
  (SFcompare y z = Some Lt \/ SFcompare y z = Some Eq) ->
  SFcompare x z = Some Lt \/ SFcompare x z = Some Eq.
Proof.
  destruct x as [sx|sx| |sx mx ex], y as [sy|sy| |sy my ey],
           z as [sz|sz| |sz mz ez]; simpl;
    try (destruct sx); try (destruct sy); try (destruct sz);
    try (intros [?|?] [?|?]; auto; congruence).
  all: change (Pos.compare_cont Eq) with Pos.compare;
    repeat match goal with
           | |- context [Z.compare ?a ?b] => destruct (Z.compare_spec a b)
           end;
    repeat match goal with
           | |- context [Pos.compare ?a ?b] => destruct (Pos.compare_spec a b)
           end;
    simpl; intros [?|?] [?|?]; auto; try congruence; try lia.
Qed.

Lemma leb_trans (x y z : float) :
  (x <=? y)%float = true -> (y <=? z)%float = true -> (x <=? z)%float = true.
Proof.
  rewrite !FloatAxioms.leb_spec. unfold SFleb. intros Hxy Hyz.
  destruct (SFcompare_le_trans (Prim2SF x) (Prim2SF y) (Prim2SF z)) as [E|E].
  - destruct (SFcompare (Prim2SF x) (Prim2SF y)) as [[]|]; auto; congruence.
  - destruct (SFcompare (Prim2SF y) (Prim2SF z)) as [[]|]; auto; congruence.
  - now rewrite E.
  - now rewrite E.
Qed.

(** X21. Every amount inside the range that GET /api/rates advertises
    for an asset ([0.1, 100] SOL, [10, 50000] USDT or USDC) is accepted
    by [validatePaymentAmount].  The validator is wider than the
    advertisement: it accepts 0.05 SOL, 1000 SOL and 1 USDT, which lie
    outside the advertised ranges. *)
Theorem advertised_amounts_are_valid :
  (forall asset lo hi amount,
      advertised_range asset = Some (lo, hi) ->
      (lo <=? amount)%float = true -> (amount <=? hi)%float = true ->
      PaymentServiceV1.validatePaymentAmount amount asset = Ok true) /\
  advertised_range "SOL" = Some (0.1, 100)%float /\
  advertised_range "USDT" = Some (10, 50000)%float /\
  advertised_range "USDC" = Some (10, 50000)%float /\
  PaymentServiceV1.validatePaymentAmount 0.05 "SOL" = Ok true /\
  PaymentServiceV1.validatePaymentAmount 1000 "SOL" = Ok true /\
  PaymentServiceV1.validatePaymentAmount 1 "USDT" = Ok true.
Proof.
  split; [|repeat split; vm_compute; reflexivity].
  intros asset lo hi amount Hr Hlo Hhi.
  apply validatePaymentAmount_cases.
  revert Hr. unfold advertised_range, SecureApi.rates. cbn [List.find fst].
  destruct (String.eqb_spec "SOL" asset) as [<-|_].
  { intros [= <- <-]. split; [reflexivity|].
    unfold payment_out_of_bounds.
    change (JS.toUpperCase "SOL") with "SOL". simpl.
    apply negb_false_iff, andb_true_iff. split.
    - eapply leb_trans; [|exact Hlo]. reflexivity.
    - eapply leb_trans; [exact Hhi|]. reflexivity. }
  destruct (String.eqb_spec "USDT" asset) as [<-|_].
  { intros [= <- <-]. split; [reflexivity|].
    unfold payment_out_of_bounds.
    change (JS.toUpperCase "USDT") with "USDT". simpl.
    apply negb_false_iff, andb_true_iff. split.
    - eapply leb_trans; [|exact Hlo]. reflexivity.
    - eapply leb_trans; [exact Hhi|]. reflexivity. }
  destruct (String.eqb_spec "USDC" asset) as [<-|_]; [|discriminate].
  intros [= <- <-]. split; [reflexivity|].
  unfold payment_out_of_bounds.
  change (JS.toUpperCase "USDC") with "USDC". simpl.
  apply negb_false_iff, andb_true_iff. split.
  - eapply leb_trans; [|exact Hlo]. reflexivity.
  - eapply leb_trans; [exact Hhi|]. reflexivity.
Qed.

Lemma advertised_amounts_are_valid_witness :
  PaymentServiceV1.validatePaymentAmount 0.1 "SOL" = Ok true.
Proof.
  apply (proj1 advertised_amounts_are_valid "SOL" 0.1%float 100%float);
    reflexivity.
Defined.

(** ** The allow-list as the environment gives it *)

Lemma split_commas_nonempty text : ServerConfig.split_commas text <> [].
Proof.
  destruct text as [|c rest]; simpl; [discriminate|].
  destruct (Ascii.eqb c ","); [discriminate|].
  destruct (ServerConfig.split_commas rest); discriminate.
Qed.

(** A well-formed, fresh request meets the allow-list and then the
    transfer. *)
Lemma post_transfer_cgt_admitted env wallet amount time w :
  SecureApi.isValidSolanaAddress wallet = true ->
  transfer_in_bounds amount = true ->
  time <> 0 -> Z.abs (now w - time) <= 300000 ->
  SecureApi.post_transfer_cgt env (transfer_request wallet amount time) w
  = if recipient_allowed env wallet
    then ({| SecureApi.status := 200;
             SecureApi.body :=
               SecureApi.Transfer
                 (match fst (SecureApi.executeSecureCgtTransfer env wallet
                               amount w) with
                  | Ok outcome => outcome
                  | Throw _ =>
                      SecureApi.TransferFailed "Transfer execution failed"
                  end) |},
          snd (SecureApi.executeSecureCgtTransfer env wallet amount w))
    else ({| SecureApi.status := 403;
             SecureApi.body := SecureApi.Failure "Recipient not authorized" |},
          w).
Proof.
  intros Hw Ha Ht Hfresh.
  apply in_bounds_amount_passes in Ha as (Htr & Hpf & Hnan & Hlo & Hhi).
  unfold SecureApi.post_transfer_cgt, SecureApi.handle, transfer_request.
  cbn [SecureApi.recipientWallet SecureApi.amount SecureApi.timestamp].
  rewrite (valid_address_nonempty _ Hw), Htr, Hw, Hpf, Hnan, Hlo, Hhi.
  unfold SecureApi.truthy_time.
  apply Z.eqb_neq in Ht. rewrite Ht. cbn [negb orb].
  assert (Hx : (300000 <? Z.abs (now w - time)) = false)
    by (apply Z.ltb_ge; exact Hfresh).
  rewrite Hx. unfold recipient_allowed.
  destruct ((0 <? length (ALLOWED_RECIPIENTS env))%nat
            && negb (bool_decide (wallet ∈ ALLOWED_RECIPIENTS env)));
    cbn [negb]; [reflexivity|].
  unfold bind, ret.
  destruct (SecureApi.executeSecureCgtTransfer env wallet amount w)
    as [r w1] eqn:E.
  destruct (executeSecureCgtTransfer_total _ _ _ _ _ _ E)
    as (outcome & -> & _ & _).
  reflexivity.
Qed.

(** X22. SERVER_CONFIG.ALLOWED_RECIPIENTS is the environment variable
    split at its commas.  Once the variable is set the allow-list is in
    force, because [split] never returns the empty array: a well-formed
    and fresh request to POST /api/transfer-cgt is answered 200 when the
    wallet is exactly one of the pieces, and 403 "Recipient not
    authorized", with nothing sent, otherwise.  With the variable set to
    the empty text the only piece is the empty string, so every recipient
    is refused. *)
Theorem allow_list_from_environment env text wallet amount time w :
  ALLOWED_RECIPIENTS env = ServerConfig.ALLOWED_RECIPIENTS_of (Some text) ->
  SecureApi.isValidSolanaAddress wallet = true ->
  transfer_in_bounds amount = true ->
  time <> 0 -> Z.abs (now w - time) <= 300000 ->
  let answer :=
    SecureApi.post_transfer_cgt env (transfer_request wallet amount time) w in
  (wallet ∈ ServerConfig.split_commas text ->
   SecureApi.status (fst answer) = 200) /\
  (wallet ∉ ServerConfig.split_commas text ->
   answer = ({| SecureApi.status := 403;
                SecureApi.body := SecureApi.Failure "Recipient not authorized" |},
             w)) /\
  (text = "" ->
   answer = ({| SecureApi.status := 403;
                SecureApi.body := SecureApi.Failure "Recipient not authorized" |},
             w)).
Proof.
  intros Hlist Hw Ha Ht Hfresh answer. subst answer.
  rewrite (post_transfer_cgt_admitted env wallet amount time w Hw Ha Ht Hfresh).
  unfold recipient_allowed. rewrite Hlist. simpl ServerConfig.ALLOWED_RECIPIENTS_of.
  assert (Hlen : (0 <? length (ServerConfig.split_commas text))%nat = true).
  { pose proof (split_commas_nonempty text) as Hne.
    destruct (ServerConfig.split_commas text); [contradiction|reflexivity]. }
  rewrite Hlen. cbn [andb].
  assert (Hout : wallet ∉ ServerConfig.split_commas text ->
                 (if negb (negb (bool_decide
                                   (wallet ∈ ServerConfig.split_commas text)))
                  then ({| SecureApi.status := 200;
                           SecureApi.body :=
                             SecureApi.Transfer
                               (match fst (SecureApi.executeSecureCgtTransfer
                                             env wallet amount w) with
                                | Ok outcome => outcome
                                | Throw _ =>
                                    SecureApi.TransferFailed
                                      "Transfer execution failed"
                                end) |},
                        snd (SecureApi.executeSecureCgtTransfer env wallet
                               amount w))
                  else ({| SecureApi.status := 403;
                           SecureApi.body :=
                             SecureApi.Failure "Recipient not authorized" |},
                        w))
                 = ({| SecureApi.status := 403;
                       SecureApi.body :=
                         SecureApi.Failure "Recipient not authorized" |}, w)).
  { intros Hnot. rewrite bool_decide_eq_false_2 by exact Hnot. reflexivity. }
  split; [|split].
  - intros Hin. rewrite bool_decide_eq_true_2 by exact Hin. reflexivity.
  - exact Hout.
  - intros ->. apply Hout. simpl. intros Hin.
    apply list_elem_of_singleton in Hin. subst wallet.
    vm_compute in Hw. discriminate.
Qed.

Lemma allow_list_from_environment_witness :
  SecureApi.post_transfer_cgt Scenario.env_blank_allow_list
    (transfer_request Sample.payer 100 1751000000000) Sample.world
  = ({| SecureApi.status := 403;
        SecureApi.body := SecureApi.Failure "Recipient not authorized" |},
     Sample.world).
Proof.
  apply (allow_list_from_environment Scenario.env_blank_allow_list ""
           Sample.payer 100%float 1751000000000 Sample.world).
  - reflexivity.
  - vm_compute. reflexivity.
  - vm_compute. reflexivity.
  - discriminate.
  - vm_compute. discriminate.
  - reflexivity.
Defined.

(** ** Configurable rates *)

(** X23. In the token service that reads its rates from the environment,
    [calculateCgtAmount] never reads USDC_TO_CGT_RATE: 'USDC' shares the
    branch of 'USDT', so a USDC payment is rewarded at the USDT rate,
    while GET /api/rates advertises USDC_TO_CGT_RATE for it.  The two
    agree for SOL and USDT, and for USDC exactly when the computed
    products agree. *)
Theorem usdc_reward_uses_usdt_rate rates amount :
  (forall rates' tokenType,
      TokenServiceRates.SOL_TO_CGT_RATE rates'
      = TokenServiceRates.SOL_TO_CGT_RATE rates ->
      TokenServiceRates.USDT_TO_CGT_RATE rates'
      = TokenServiceRates.USDT_TO_CGT_RATE rates ->
      TokenServiceRates.calculateCgtAmount rates' amount tokenType
      = TokenServiceRates.calculateCgtAmount rates amount tokenType) /\
  TokenServiceRates.calculateCgtAmount rates amount "USDC"
  = Ok (amount * TokenServiceRates.USDT_TO_CGT_RATE rates)%float /\
  TokenServiceRates.advertised_rate rates "USDC"
  = Some (TokenServiceRates.USDC_TO_CGT_RATE rates) /\
  (forall asset rate,
      asset <> "USDC" ->
      TokenServiceRates.advertised_rate rates asset = Some rate ->
      TokenServiceRates.calculateCgtAmount rates amount asset
      = Ok (amount * rate)%float).
Proof.
  split; [|split; [|split]].
  - intros rates' tokenType Hsol Husdt.
    unfold TokenServiceRates.calculateCgtAmount. now rewrite Hsol, Husdt.
  - reflexivity.
  - reflexivity.
  - intros asset rate Hne. unfold TokenServiceRates.advertised_rate.
    destruct (String.eqb_spec asset "SOL") as [->|_].
    { intros [= <-]. reflexivity. }
    destruct (String.eqb_spec asset "USDT") as [->|_].
    { intros [= <-]. reflexivity. }
    destruct (String.eqb_spec asset "USDC") as [->|_]; [contradiction|].
    discriminate.
Qed.

(** ** Starting the server: the search for a free port *)

Lemma startServer_attempts fuel listen port result :
  AppServer.startServer fuel listen port = Some result ->
  exists k, (k < fuel)%nat /\
    (forall j, (j < k)%nat ->
       listen (AppServer.attempt j port) = Some AppServer.EADDRINUSE) /\
    match result with
    | AppServer.Resolved p =>
        p = AppServer.attempt k port /\ listen p = None
    | AppServer.Rejected e =>
        e <> AppServer.EADDRINUSE /\
        listen (AppServer.attempt k port) = Some e
    end.
Proof.
  revert port. induction fuel as [|fuel IH]; intros port; simpl;
    [discriminate|].
  destruct (listen port) as [[|code]|] eqn:Hl.
  - intros H. apply IH in H as (k & Hk & Hbusy & Hres).
    exists (S k). split; [lia|]. split.
    + intros [|j] Hj; [exact Hl|].
      unfold AppServer.attempt. rewrite Nat.iter_succ_r.
      apply Hbusy. lia.
    + unfold AppServer.attempt in *. rewrite Nat.iter_succ_r. exact Hres.
  - intros [= <-]. exists 0%nat. split; [lia|]. split; [intros j Hj; lia|].
    split; [discriminate|exact Hl].
  - intros [= <-]. exists 0%nat. split; [lia|]. split; [intros j Hj; lia|].
    split; [reflexivity|exact Hl].
Qed.

Lemma startServer_finds fuel listen port k :
  (k < fuel)%nat ->
  (forall j, (j < k)%nat ->
     listen (AppServer.attempt j port) = Some AppServer.EADDRINUSE) ->
  listen (AppServer.attempt k port) <> Some AppServer.EADDRINUSE ->
  AppServer.startServer fuel listen port
  = Some (match listen (AppServer.attempt k port) with
          | None => AppServer.Resolved (AppServer.attempt k port)
          | Some e => AppServer.Rejected e
          end).
Proof.
  revert port k. induction fuel as [|fuel IH]; intros port k Hk Hbusy Hfree;
    [lia|].
  destruct k as [|k]; cbn [AppServer.startServer].
  - change (AppServer.attempt 0 port) with port in *.
    destruct (listen port) as [[|code]|]; auto. contradiction.
  - pose proof (Hbusy 0%nat ltac:(lia)) as H0.
    change (AppServer.attempt 0 port) with port in H0. rewrite H0.
    assert (Hshift : forall j, AppServer.attempt (S j) port
                               = AppServer.attempt j (AppServer.plus_one port))
      by (intros j; unfold AppServer.attempt; apply Nat.iter_succ_r).
    rewrite Hshift in *.
    apply IH; [lia| |exact Hfree].
    intros j Hj. rewrite <- Hshift. apply Hbusy. lia.
Qed.

Lemma attempt_number k n :
  AppServer.attempt k (AppServer.PortNumber n)
  = AppServer.PortNumber (n + Z.of_nat k).
Proof.
  unfold AppServer.attempt. induction k as [|k IH].
  - simpl. f_equal. lia.
  - rewrite Nat.iter_succ, IH. simpl. f_equal. lia.
Qed.

Lemma append_empty s : s +:+ "" = s.
Proof.
  induction s as [|c s IHs]; [reflexivity|].
  change (String c s +:+ "") with (String c (s +:+ "")). now rewrite IHs.
Qed.

Lemma append_assoc s t u : (s +:+ t) +:+ u = s +:+ (t +:+ u).
Proof.
  induction s as [|c s IHs]; [reflexivity|].
  change ((String c s +:+ t) +:+ u) with (String c ((s +:+ t) +:+ u)).
  change (String c s +:+ (t +:+ u)) with (String c (s +:+ (t +:+ u))).
  now rewrite IHs.
Qed.

Lemma attempt_text k s :
  AppServer.attempt k (AppServer.PortText s)
  = AppServer.PortText (s +:+ AppServer.ones k).
Proof.
  unfold AppServer.attempt. revert s. induction k as [|k IH]; intros s.
  - simpl. now rewrite append_empty.
  - rewrite Nat.iter_succ_r. simpl AppServer.plus_one. rewrite IH.
    now rewrite append_assoc.
Qed.

(** X24. [startServer] of [app.js] listens on the first port, counted
    from PORT by repeated [port + 1], that is not in use: every port
    before it answered EADDRINUSE, and any other error ends the search
    with a rejection.  A search that meets such a port after [k] busy
    ones ends within [k + 1] attempts.  PORT is [process.env.PORT ||
    3001]: from the default the attempts are 3001, 3002, ...; from the
    environment PORT is text and [+ 1] appends the digit 1, so after
    "3001" the next attempt is "30011". *)
Theorem startServer_first_free_port listen port :
  (forall fuel result,
      AppServer.startServer fuel listen port = Some result ->
      exists k, (k < fuel)%nat /\
        (forall j, (j < k)%nat ->
           listen (AppServer.attempt j port) = Some AppServer.EADDRINUSE) /\
        match result with
        | AppServer.Resolved p =>
            p = AppServer.attempt k port /\ listen p = None
        | AppServer.Rejected e =>
            e <> AppServer.EADDRINUSE /\
            listen (AppServer.attempt k port) = Some e
        end) /\
  (forall k fuel,
      (k < fuel)%nat ->
      (forall j, (j < k)%nat ->
         listen (AppServer.attempt j port) = Some AppServer.EADDRINUSE) ->
      listen (AppServer.attempt k port) <> Some AppServer.EADDRINUSE ->
      AppServer.startServer fuel listen port
      = Some (match listen (AppServer.attempt k port) with
              | None => AppServer.Resolved (AppServer.attempt k port)
              | Some e => AppServer.Rejected e
              end)) /\
  (forall k, AppServer.attempt k (AppServer.PORT None)
             = AppServer.PortNumber (3001 + Z.of_nat k)) /\
  (forall k text,
      JS.truthy_str text = true ->
      AppServer.attempt k (AppServer.PORT (Some text))
      = AppServer.PortText (text +:+ AppServer.ones k)).
Proof.
  split; [|split; [|split]].
  - intros fuel result. apply startServer_attempts.
  - intros k fuel. apply startServer_finds.
  - intros k. apply attempt_number.
  - intros k text Ht. unfold AppServer.PORT. rewrite Ht. apply attempt_text.
Qed.

Lemma startServer_first_free_port_witness :
  AppServer.startServer 5
    (fun port =>
       match port with
       | AppServer.PortText "3001" => Some AppServer.EADDRINUSE
       | _ => None
       end)
    (AppServer.PORT (Some "3001"))
  = Some (AppServer.Resolved (AppServer.PortText "30011")).
Proof.
  refine (proj1 (proj2 (startServer_first_free_port
                         (fun port =>
                            match port with
                            | AppServer.PortText "3001" =>
                                Some AppServer.EADDRINUSE
                            | _ => None
                            end)
                         (AppServer.PORT (Some "3001")))) 1%nat 5%nat _ _ _).
  - lia.
  - intros [|j] Hj; [reflexivity|lia].
  - discriminate.
Defined.

(** ** Starting the server: retries on one port *)

Lemma retry_step attempts fuel retryCount :
  RetryServer.startServer (S fuel) attempts retryCount
  = if RetryServer.succeeds (attempts retryCount) then Some RetryServer.Serving
    else if RetryServer.retryable (attempts retryCount) && (retryCount <? 3)%nat
    then RetryServer.startServer fuel attempts (S retryCount)
    else Some (RetryServer.Exit 1).
Proof.
  unfold RetryServer.succeeds, RetryServer.retryable. simpl.
  destruct (RetryServer.probe (attempts retryCount));
    [destruct (RetryServer.listen (attempts retryCount)) as [[|code]|]|..];
    simpl; reflexivity.
Qed.

(** X25. The entry point that retries on one port makes at most four
    attempts, the first and three retries.  It serves exactly when some
    attempt among the first four finds the port free and listens, every
    attempt before it having found the port taken; it exits with code 1
    otherwise, at once when [listen] fails with another error than
    EADDRINUSE, and after the fourth attempt at the latest.  What a
    fifth attempt would meet is never looked at. *)
Theorem startServer_retries_three_times attempts :
  (exists outcome,
      RetryServer.startServer 4 attempts 0 = Some outcome /\
      (outcome = RetryServer.Serving \/ outcome = RetryServer.Exit 1)) /\
  (RetryServer.startServer 4 attempts 0 = Some RetryServer.Serving <->
   exists k, (k <= 3)%nat /\
     RetryServer.succeeds (attempts k) = true /\
     forall j, (j < k)%nat -> RetryServer.retryable (attempts j) = true) /\
  (forall fuel, (4 <= fuel)%nat ->
     RetryServer.startServer fuel attempts 0
     = RetryServer.startServer 4 attempts 0) /\
  (forall attempts',
      (forall k, (k <= 3)%nat -> attempts' k = attempts k) ->
      RetryServer.startServer 4 attempts' 0
      = RetryServer.startServer 4 attempts 0).
Proof.
  assert (Hexcl : forall a, RetryServer.succeeds a = true ->
                            RetryServer.retryable a = false).
  { intros [[] [[]|]]; unfold RetryServer.succeeds, RetryServer.retryable;
      simpl; congruence. }
  split; [|split; [|split]].
  - rewrite !retry_step, !andb_true_r. simpl Nat.ltb.
    rewrite andb_false_r.
    repeat match goal with
           | |- context [RetryServer.succeeds ?a] =>
               destruct (RetryServer.succeeds a)
           | |- context [RetryServer.retryable ?a] =>
               destruct (RetryServer.retryable a)
           end;
      eexists; (split; [reflexivity|]);
      first [left; reflexivity|right; reflexivity].
  - rewrite !retry_step. simpl Nat.ltb. rewrite !andb_true_r, andb_false_r.
    split.
    + destruct (RetryServer.succeeds (attempts 0%nat)) eqn:S0.
      { intros _. exists 0%nat. repeat split; auto; lia. }
      destruct (RetryServer.retryable (attempts 0%nat)) eqn:R0; [|discriminate].
      destruct (RetryServer.succeeds (attempts 1%nat)) eqn:S1.
      { intros _. exists 1%nat. repeat split; auto.
        intros [|j] Hj; [exact R0|lia]. }
      destruct (RetryServer.retryable (attempts 1%nat)) eqn:R1; [|discriminate].
      destruct (RetryServer.succeeds (attempts 2%nat)) eqn:S2.
      { intros _. exists 2%nat. repeat split; auto.
        intros [|[|j]] Hj; [exact R0|exact R1|lia]. }
      destruct (RetryServer.retryable (attempts 2%nat)) eqn:R2; [|discriminate].
      destruct (RetryServer.succeeds (attempts 3%nat)) eqn:S3; [|discriminate].
      intros _. exists 3%nat. repeat split; auto.
      intros [|[|[|j]]] Hj; [exact R0|exact R1|exact R2|lia].
    + intros (k & Hk & Hs & Hr).
      assert (Hpre : forall j, (j < k)%nat ->
                 RetryServer.succeeds (attempts j) = false /\
                 RetryServer.retryable (attempts j) = true).
      { intros j Hj. specialize (Hr j Hj). split; [|exact Hr].
        destruct (RetryServer.succeeds (attempts j)) eqn:E; [|reflexivity].
        apply Hexcl in E. congruence. }
      destruct k as [|[|[|[|k]]]]; [| | | |lia].
      * now rewrite Hs.
      * destruct (Hpre 0%nat ltac:(lia)) as [-> ->]. now rewrite Hs.
      * destruct (Hpre 0%nat ltac:(lia)) as [-> ->].
        destruct (Hpre 1%nat ltac:(lia)) as [-> ->]. now rewrite Hs.
      * destruct (Hpre 0%nat ltac:(lia)) as [-> ->].
        destruct (Hpre 1%nat ltac:(lia)) as [-> ->].
        destruct (Hpre 2%nat ltac:(lia)) as [-> ->]. now rewrite Hs.
  - intros fuel Hfuel.
    destruct fuel as [|[|[|[|fuel]]]]; try lia.
    rewrite !retry_step. simpl Nat.ltb. rewrite !andb_false_r. reflexivity.
  - intros attempts' Heq.
    rewrite !retry_step, !Heq by lia. reflexivity.
Qed.

(** ** GET /api/leaderboard *)

Lemma leaderboard_loop_spec generate remaining i board :
  AppServer.leaderboard_loop generate remaining i board
  = (board ++ map (fun d =>
                     {| AppServer.rank := i + Z.of_nat d;
                        AppServer.address := generate (i + Z.of_nat d);
                        AppServer.amount :=
                          AppServer.amount_of_rank (i + Z.of_nat d) |})
                  (seq 0 remaining))%list.
Proof.
  revert i board. induction remaining as [|remaining IH]; intros i board.
  - simpl. now rewrite app_nil_r.
  - cbn [AppServer.leaderboard_loop]. rewrite IH, <- app_assoc.
    f_equal. cbn [seq map app]. rewrite Z.add_0_r. f_equal.
    rewrite <- seq_shift, map_map. apply map_ext. intros d.
    replace (i + 1 + Z.of_nat d) with (i + Z.of_nat (S d)) by lia.
    reflexivity.
Qed.

Lemma amount_of_rank_decreases i :
  1 <= i < 50 ->
  0 < AppServer.amount_of_rank (i + 1) < AppServer.amount_of_rank i.
Proof.
  unfold AppServer.amount_of_rank. intros Hi.
  destruct (Z.leb_spec (i + 1) 10), (Z.leb_spec i 10); lia.
Qed.

(** X26. The mock leaderboard has 50 entries, ranked 1 to 50 in order.
    The amount of each entry is positive and each entry holds less than
    the one ranked before it, also across the change of formula between
    rank 10 and rank 11: the listing is sorted by amount whatever
    addresses are drawn. *)
Theorem leaderboard_sorted generateSolanaAddress :
  let board := AppServer.get_leaderboard generateSolanaAddress in
  length board = 50%nat /\
  (forall k entry,
      nth_error board k = Some entry ->
      AppServer.rank entry = Z.of_nat k + 1 /\
      AppServer.address entry = generateSolanaAddress (AppServer.rank entry) /\
      0 < AppServer.amount entry <= 85000) /\
  (forall k entry next,
      nth_error board k = Some entry ->
      nth_error board (S k) = Some next ->
      AppServer.amount next < AppServer.amount entry).
Proof.
  unfold AppServer.get_leaderboard. rewrite leaderboard_loop_spec.
  cbn [app].
  set (entry_of := fun d : nat =>
         {| AppServer.rank := 1 + Z.of_nat d;
            AppServer.address := generateSolanaAddress (1 + Z.of_nat d);
            AppServer.amount := AppServer.amount_of_rank (1 + Z.of_nat d) |}).
  assert (Hnth : forall k entry,
             nth_error (map entry_of (seq 0 50)) k = Some entry ->
             (k < 50)%nat /\ entry = entry_of k).
  { intros k entry H. rewrite nth_error_map in H.
    destruct (nth_error (seq 0 50) k) as [d|] eqn:Hd; [|discriminate].
    injection H as <-.
    assert (Hk : (k < 50)%nat).
    { pose proof (proj1 (nth_error_Some (seq 0 50) k)) as Hs.
      rewrite Hd in Hs. rewrite length_seq in Hs. apply Hs. discriminate. }
    split; [exact Hk|].
    rewrite nth_error_seq in Hd.
    destruct (Nat.ltb_spec k 50); [|lia]. injection Hd as <-. reflexivity. }
  split; [|split].
  - now rewrite length_map, length_seq.
  - intros k entry H. apply Hnth in H as [Hk ->]. unfold entry_of. simpl.
    split; [lia|]. split; [reflexivity|].
    unfold AppServer.amount_of_rank.
    destruct (Z.leb_spec (1 + Z.of_nat k) 10); lia.
  - intros k entry next H H'.
    apply Hnth in H as [Hk ->]. apply Hnth in H' as [Hk' ->].
    unfold entry_of. simpl.
    replace (1 + Z.of_nat (S k)) with (1 + Z.of_nat k + 1) by lia.
    apply amount_of_rank_decreases. lia.
Qed.

(** ** validateServerConfig: which error *)




(** ** The payment and balance endpoints *)

Ltac refused_create :=
  cbn [negb orb JS.truthy_opt andb fst snd SecureApi.status SecureApi.body
       ret];
  split; [reflexivity|]; split; [right; left; reflexivity|];
  split;
  [ split; intros _; [rewrite ?andb_false_r|]; reflexivity
  | split;
    [ intros H; discriminate H
    | intros (? & ? & ? & ? & Hw & Ha & Ht & _ & Hbody);
      first [discriminate Hw|discriminate Ha|discriminate Ht
            |discriminate Hbody] ] ].

(** X28. POST /api/payment/create, POST /api/payment/verify and GET
    /api/balance/:wallet answer 200, 400 or 500.  Creating a payment and
    reading a balance never send a transaction, whatever the answer.
    The create endpoint answers 400 exactly when the wallet, the amount
    or the token type is absent or falsy (an amount of 0 counts as
    absent), and 200 exactly when [createPayment] returns.  The verify
    endpoint sends nothing when it answers 400, and when it answers 200
    exactly one more treasury disbursement has been broadcast. *)
Theorem payment_endpoints_answers env req wallet w :
  let created := SecureApi.post_payment_create env req w in
  let verified := SecureApi.post_payment_verify env req w in
  let balance := SecureApi.get_balance env wallet w in
  let present :=
    JS.truthy_opt JS.truthy_str (SecureApi.req_wallet req)
    && JS.truthy_opt JS.truthy (SecureApi.req_amount req)
    && JS.truthy_opt JS.truthy_str (SecureApi.req_tokenType req) in
  (forall answer,
      answer = fst created \/ answer = fst verified \/ answer = fst balance ->
      SecureApi.status answer = 200 \/ SecureApi.status answer = 400 \/
      SecureApi.status answer = 500) /\
  snd created = w /\ snd balance = w /\
  (SecureApi.status (fst created) = 400 <-> present = false) /\
  (SecureApi.status (fst created) = 200 <->
   exists userWallet amount tokenType data,
     SecureApi.req_wallet req = Some userWallet /\
     SecureApi.req_amount req = Some amount /\
     SecureApi.req_tokenType req = Some tokenType /\
     PaymentService.createPayment env userWallet amount tokenType w
     = (Ok data, w) /\
     SecureApi.body (fst created) = SecureApi.Payment data) /\
  (SecureApi.status (fst verified) = 400 -> snd verified = w) /\
  (SecureApi.status (fst verified) = 200 ->
   disbursements (snd verified) = S (disbursements w)).
Proof.
  cbv zeta.
  assert (Hcreate :
    snd (SecureApi.post_payment_create env req w) = w /\
    (SecureApi.status (fst (SecureApi.post_payment_create env req w)) = 200 \/
     SecureApi.status (fst (SecureApi.post_payment_create env req w)) = 400 \/
     SecureApi.status (fst (SecureApi.post_payment_create env req w)) = 500) /\
    (SecureApi.status (fst (SecureApi.post_payment_create env req w)) = 400 <->
     JS.truthy_opt JS.truthy_str (SecureApi.req_wallet req)
     && JS.truthy_opt JS.truthy (SecureApi.req_amount req)
     && JS.truthy_opt JS.truthy_str (SecureApi.req_tokenType req) = false) /\
    (SecureApi.status (fst (SecureApi.post_payment_create env req w)) = 200 <->
     exists userWallet amount tokenType data,
       SecureApi.req_wallet req = Some userWallet /\
       SecureApi.req_amount req = Some amount /\
       SecureApi.req_tokenType req = Some tokenType /\
       PaymentService.createPayment env userWallet amount tokenType w
       = (Ok data, w) /\
       SecureApi.body (fst (SecureApi.post_payment_create env req w))
       = SecureApi.Payment data)).
  { unfold SecureApi.post_payment_create, SecureApi.handle.
    destruct (SecureApi.req_wallet req) as [userWallet|]; [|refused_create].
    destruct (SecureApi.req_amount req) as [amount|]; [|refused_create].
    destruct (SecureApi.req_tokenType req) as [tokenType|]; [|refused_create].
    cbn [JS.truthy_opt].
    destruct (JS.truthy_str userWallet); [|refused_create].
    destruct (JS.truthy amount); [|refused_create].
    destruct (JS.truthy_str tokenType); [|refused_create].
    cbn [negb orb JS.truthy_opt andb]. unfold bind, ret.
    pose proof (reads_only_createPayment env userWallet amount tokenType w)
      as Hread.
    destruct (PaymentService.createPayment env userWallet amount tokenType w)
      as [[data|e] w1] eqn:E; simpl in Hread; subst w1; cbn [fst snd].
    - split; [reflexivity|]. split; [left; reflexivity|].
      split; [split; intros H; discriminate H|].
      split; [|reflexivity].
      intros _. exists userWallet, amount, tokenType, data.
      do 3 (split; [reflexivity|]). split; [exact E|reflexivity].
    - split; [reflexivity|]. split; [right; right; reflexivity|].
      split; [split; intros H; discriminate H|].
      split; [intros H; discriminate H|].
      intros (? & ? & ? & ? & _ & _ & _ & _ & H). discriminate H. }
  assert (Hverify :
    (SecureApi.status (fst (SecureApi.post_payment_verify env req w)) = 200 \/
     SecureApi.status (fst (SecureApi.post_payment_verify env req w)) = 400 \/
     SecureApi.status (fst (SecureApi.post_payment_verify env req w)) = 500) /\
    (SecureApi.status (fst (SecureApi.post_payment_verify env req w)) = 400 ->
     snd (SecureApi.post_payment_verify env req w) = w) /\
    (SecureApi.status (fst (SecureApi.post_payment_verify env req w)) = 200 ->
     disbursements (snd (SecureApi.post_payment_verify env req w))
     = S (disbursements w))).
  { unfold SecureApi.post_payment_verify, SecureApi.handle.
    destruct (SecureApi.req_signature req) as [signature|]; simpl;
      [|repeat split; auto; discriminate].
    destruct (SecureApi.req_wallet req) as [userWallet|]; simpl;
      [|repeat split; auto; discriminate].
    destruct (SecureApi.req_amount req) as [amount|]; simpl;
      [|repeat split; auto; discriminate].
    destruct (SecureApi.req_tokenType req) as [tokenType|]; simpl;
      [|repeat split; auto; discriminate].
    destruct (negb (JS.truthy_str signature) || negb (JS.truthy_str userWallet)
              || negb (JS.truthy amount) || negb (JS.truthy_str tokenType));
      simpl; [repeat split; auto; discriminate|].
    unfold bind, ret.
    destruct (PaymentService.verifyPayment env signature userWallet amount
                tokenType w) as [[r|e] w1] eqn:E; simpl.
    - apply verifyPayment_ok in E as (_ & _ & _ & Hd & _).
      repeat split; auto; discriminate.
    - repeat split; auto; discriminate. }
  assert (Hbalance :
    snd (SecureApi.get_balance env wallet w) = w /\
    (SecureApi.status (fst (SecureApi.get_balance env wallet w)) = 200 \/
     SecureApi.status (fst (SecureApi.get_balance env wallet w)) = 400 \/
     SecureApi.status (fst (SecureApi.get_balance env wallet w)) = 500)).
  { unfold SecureApi.get_balance, SecureApi.handle.
    destruct (JS.truthy_str wallet); simpl; [|auto].
    unfold bind, ret.
    assert (Hread : reads_only (TokenService.getCgtBalance env wallet))
      by (unfold TokenService.getCgtBalance; read_only).
    specialize (Hread w).
    destruct (TokenService.getCgtBalance env wallet w) as [[b|e] w1];
      simpl in Hread; subst w1; simpl; auto. }
  destruct Hcreate as (Hc1 & Hc2 & Hc3 & Hc4).
  destruct Hverify as (Hv1 & Hv2 & Hv3).
  destruct Hbalance as (Hb1 & Hb2).
  split; [intros answer [->|[->| ->]]; assumption|].
  repeat split; try assumption; try apply Hc3; try apply Hc4.
Qed.
